(** * JHA Interactive v2: the filter, load, chart and report pipeline

    A shallow embedding of [jha_streamlit_app_v2.py] and the properties its
    specification states about it.

    Modelling conventions.
    - Text is [string] (a sequence of 8-bit characters).  [str.lower] and
      [str.strip] are modelled on ASCII text; case mapping of characters
      beyond ASCII is outside the model.
    - A cell of a sheet read with [dtype=object] is a [value]: the missing
      value (NaN), a text or an integer.  Floating-point, boolean and date
      cells are outside the model.
    - A [DataFrame] is its header and its rows, each row holding one cell per
      header position.  Headers are taken to be pairwise distinct, as the
      reader produces them; [df[c]] is the column at the position of [c].
    - pandas operations follow their documented semantics for frames of
      object dtype (pandas 1.x and 2.x): [astype(str)] applies [str] to every
      cell, the missing value included; [apply(f, axis=1)] calls [f] once per
      row; a boolean mask selects rows in order and keeps the header;
      [str.contains] compiles its pattern as a regular expression.
    - The regular-expression engine and the chart renderer are libraries: they
      enter as interfaces ([RegexEngine], [Renderer]) and every result holds
      for all their implementations.  [PlainEngine] and [SampleRenderer] are
      small implementations on which the model runs.
    - A Python exception is a value of [exn] in the [result] monad.
    - The CSV and spreadsheet exports are serialisations by the library and
      are not modelled. *)

From Stdlib Require Import ZArith List String Ascii Bool Lia Arith.
From Stdlib Require Import DecimalString.
From Stdlib Require Import Sorted Permutation.
Import ListNotations.

Open Scope string_scope.
Open Scope list_scope.

(* ================================================================== *)
(** ** Exceptions *)

Inductive exn : Type :=
| ReError        (* re.error: the pattern does not compile *)
| IndexError     (* positional indexer out of bounds *)
| RenderError.   (* any exception raised by the chart renderer *)

Inductive result (A : Type) : Type :=
| Ok (a : A)
| Raise (e : exn).

Arguments Ok {A} a.
Arguments Raise {A} e.

Definition bind {A B : Type} (m : result A) (k : A -> result B) : result B :=
  match m with
  | Ok a => k a
  | Raise e => Raise e
  end.

Notation "x <- m ;; k" := (bind m (fun x => k))
  (at level 61, m at next level, right associativity).

(** [try: body except Exception: handler] *)
Definition try_except {A : Type} (body : result A) (handler : exn -> result A)
  : result A :=
  match body with
  | Ok a => Ok a
  | Raise e => handler e
  end.

Fixpoint mapM {A B : Type} (f : A -> result B) (l : list A) : result (list B) :=
  match l with
  | [] => Ok []
  | a :: t => b <- f a ;; bs <- mapM f t ;; Ok (b :: bs)
  end.

(* ================================================================== *)
(** ** Python text primitives *)

Module Py.

Definition is_upper (c : ascii) : bool :=
  let n := nat_of_ascii c in (65 <=? n)%nat && (n <=? 90)%nat.

Definition lower_char (c : ascii) : ascii :=
  if is_upper c then ascii_of_nat (nat_of_ascii c + 32) else c.

(** [s.lower()] *)
Fixpoint lower (s : string) : string :=
  match s with
  | EmptyString => EmptyString
  | String c t => String (lower_char c) (lower t)
  end.

(** [c.isspace()] on ASCII: TAB, LF, VT, FF, CR, FS, GS, RS, US and space. *)
Definition is_space (c : ascii) : bool :=
  let n := nat_of_ascii c in
  ((9 <=? n)%nat && (n <=? 13)%nat) || ((28 <=? n)%nat && (n <=? 32)%nat).

Fixpoint lstrip (s : string) : string :=
  match s with
  | EmptyString => EmptyString
  | String c t => if is_space c then lstrip t else s
  end.

Fixpoint rstrip (s : string) : string :=
  match s with
  | EmptyString => EmptyString
  | String c t =>
      match rstrip t with
      | EmptyString => if is_space c then EmptyString else String c EmptyString
      | t' => String c t'
      end
  end.

(** [s.strip()] *)
Definition strip (s : string) : string := rstrip (lstrip s).

(** [needle in hay] *)
Fixpoint str_in (needle hay : string) : bool :=
  prefix needle hay ||
  match hay with
  | EmptyString => false
  | String _ t => str_in needle t
  end.

(** [str(z)] for an int *)
Definition str_of_int (z : Z) : string := NilZero.string_of_int (Z.to_int z).

(** Truth value of a text: the empty text is false. *)
Definition truthy (s : string) : bool := negb (s =? "").

(** [s[:n]] *)
Definition slice_to (n : nat) (s : string) : string := substring 0 n s.

(** [range(0, stop, step)] for a positive step; [fuel] bounds the number of
    elements and [range_step] supplies enough of it. *)
Fixpoint range_from (fuel start stop step : nat) : list nat :=
  match fuel with
  | O => []
  | S f => if (start <? stop)%nat
           then start :: range_from f (start + step) stop step
           else []
  end.

Definition range_step (stop step : nat) : list nat :=
  range_from stop 0 stop step.

(** [sep.join(parts)] *)
Definition join (sep : string) (parts : list string) : string :=
  String.concat sep parts.

(** [s.endswith(suffix)] *)
Fixpoint endswith (suffix s : string) : bool :=
  (s =? suffix) ||
  match s with
  | EmptyString => false
  | String _ t => endswith suffix t
  end.

(** First and last character of a text, for statements about [strip]. *)
Definition first_char (s : string) : option ascii :=
  match s with
  | EmptyString => None
  | String c _ => Some c
  end.

Fixpoint last_char (s : string) : option ascii :=
  match s with
  | EmptyString => None
  | String c t => match last_char t with
                  | None => Some c
                  | Some d => Some d
                  end
  end.

Definition is_space_opt (c : option ascii) : bool :=
  match c with
  | Some a => is_space a
  | None => false
  end.

End Py.

(* ================================================================== *)
(** ** Cells and frames *)

Inductive value : Type :=
| NaN
| Str (s : string)
| Int (z : Z).

(** [str(v)] *)
Definition py_str (v : value) : string :=
  match v with
  | NaN => "nan"
  | Str s => s
  | Int z => Py.str_of_int z
  end.

Definition isna (v : value) : bool :=
  match v with NaN => true | _ => false end.

Definition value_eqb (a b : value) : bool :=
  match a, b with
  | NaN, NaN => true
  | Str s, Str t => (s =? t)%string
  | Int x, Int y => (x =? y)%Z
  | _, _ => false
  end.

Definition row : Type := list value.

Record DataFrame : Type := mkDataFrame {
  columns : list string;
  rows : list row
}.

(** [len(df)] *)
Definition len (df : DataFrame) : nat := List.length (rows df).

(** Position of the first header equal to [c]. *)
Fixpoint col_pos (c : string) (cols : list string) : option nat :=
  match cols with
  | [] => None
  | h :: t => if (h =? c)%string then Some O
              else option_map S (col_pos c t)
  end.

(** The cell of row [r] at header position [j]; a row too short reads as
    missing. *)
Definition cell (j : nat) (r : row) : value := nth j r NaN.

(** The cell of [r] in column [c] of a frame with header [cols]. *)
Definition cell_of (cols : list string) (c : string) (r : row) : value :=
  match col_pos c cols with
  | Some j => cell j r
  | None => NaN
  end.

(** [df[c]] as the list of its cells. *)
Definition series (df : DataFrame) (c : string) : list value :=
  map (cell_of (columns df) c) (rows df).

(** Every row has one cell per header. *)
Definition rectangular (df : DataFrame) : bool :=
  forallb (fun r => (List.length r =? List.length (columns df))%nat) (rows df).

(** [df[mask]] for a boolean mask aligned with the rows. *)
Fixpoint select_mask (rs : list row) (mask : list bool) : list row :=
  match rs, mask with
  | r :: rs', b :: mask' =>
      if b then r :: select_mask rs' mask' else select_mask rs' mask'
  | _, _ => []
  end.

Definition with_rows (df : DataFrame) (rs : list row) : DataFrame :=
  mkDataFrame (columns df) rs.

(* ================================================================== *)
(** ** Column Classifier (lines 102-105) *)

(** [next((c for c in df.columns if kw in c.lower()), None)] *)
Definition find_col (kw : string) (cols : list string) : option string :=
  List.find (fun c => Py.str_in kw (Py.lower c)) cols.

Definition division_col (df : DataFrame) := find_col "division" (columns df).
Definition risk_col (df : DataFrame) := find_col "risk" (columns df).
Definition hazard_col (df : DataFrame) := find_col "hazard" (columns df).
Definition control_col (df : DataFrame) := find_col "control" (columns df).

(** Truth value of an optional header: [None] and the empty text are false. *)
Definition bound (c : option string) : bool :=
  match c with
  | Some s => Py.truthy s
  | None => false
  end.

(* ================================================================== *)
(** ** The regular-expression engine behind [str.contains] *)

Class RegexEngine : Type := {
  pattern : Type;
  (** [re.compile(q)]; [None] when it raises [re.error] *)
  re_compile : string -> option pattern;
  (** [p.search(s) is not None] *)
  re_search : pattern -> string -> bool
}.

(** Characters with a special meaning in a pattern. *)
Definition is_special (c : ascii) : bool :=
  existsb (Ascii.eqb c)
    ["."; "^"; "$"; "*"; "+"; "?"; "{"; "}"; "["; "]"; "\"; "|"; "("; ")"]%char.

Fixpoint plain (q : string) : bool :=
  match q with
  | EmptyString => true
  | String c t => negb (is_special c) && plain t
  end.

(** What every engine does on a pattern free of special characters: it
    compiles, and searching is substring search. *)
Definition literal_search_ok (E : RegexEngine) : Prop :=
  forall q, plain q = true ->
    exists p, re_compile q = Some p /\
              forall s, re_search p s = Py.str_in q s.

(** A reference engine for the fragment of patterns free of special
    characters, used to run the model on concrete inputs.  Patterns with
    special characters are outside the fragment and it rejects them. *)
Definition PlainEngine : RegexEngine := {|
  pattern := string;
  re_compile := fun q => if plain q then Some q else None;
  re_search := fun p s => Py.str_in p s
|}.

(* ================================================================== *)
(** ** Filter Engine (lines 119-128) *)

Record criteria : Type := mkCriteria {
  sel_div : string;
  sel_risk : string;
  search_q : string
}.

Section FilterEngine.
Context {E : RegexEngine}.

(** [filtered[filtered[col].astype(str) == str(sel)]] *)
Definition eq_mask (df : DataFrame) (col sel : string) : list bool :=
  map (fun v => (py_str v =? sel)%string) (series df col).

Definition select_eq (df : DataFrame) (col sel : string) : DataFrame :=
  with_rows df (select_mask (rows df) (eq_mask df col sel)).

(** [if col and sel != "All": filtered = ...] *)
Definition eq_stage (col : option string) (sel : string) (df : DataFrame)
  : DataFrame :=
  match col with
  | Some c =>
      if Py.truthy c && negb (sel =? "All")%string
      then select_eq df c sel
      else df
  | None => df
  end.

(** [row.astype(str)], cell by cell *)
Definition astype_str (v : value) : value := Str (py_str v).

(** [.str.lower()]: a cell that is not a text becomes missing *)
Definition str_lower (v : value) : value :=
  match v with
  | Str s => Str (Py.lower s)
  | _ => NaN
  end.

(** [.str.contains(q, na=na)] on one cell, the pattern compiled;
    a cell that is not a text yields [na] *)
Definition str_contains (p : pattern) (na : bool) (v : value) : bool :=
  match v with
  | Str s => re_search p s
  | _ => na
  end.

(** [lambda row: row.astype(str).str.lower().str.contains(q, na=False).any()] *)
Definition row_lambda (q : string) (r : row) : result bool :=
  match re_compile q with
  | None => Raise ReError
  | Some p =>
      Ok (existsb (fun v => str_contains p false (str_lower (astype_str v))) r)
  end.

(** [if search_q: q = ...; mask = filtered.apply(..., axis=1);
     filtered = filtered[mask]] *)
Definition search_stage (search : string) (df : DataFrame)
  : result DataFrame :=
  if Py.truthy search then
    let q := Py.lower search in
    mask <- mapM (row_lambda q) (rows df) ;;
    Ok (with_rows df (select_mask (rows df) mask))
  else Ok df.

(** The three stages, in the order of the script.  The column references are
    those of the sheet [df]. *)
Definition FilterEngine (df : DataFrame) (c : criteria) : result DataFrame :=
  let filtered := df in
  let filtered := eq_stage (division_col df) (sel_div c) filtered in
  let filtered := eq_stage (risk_col df) (sel_risk c) filtered in
  search_stage (search_q c) filtered.

(** The rows each stage keeps, as predicates on a row of a frame with header
    [cols]: they are what the properties of the engine are stated with. *)
Definition eq_pred (cols : list string) (col : option string) (sel : string)
                   (r : row) : bool :=
  match col with
  | Some c =>
      if Py.truthy c && negb (sel =? "All")%string
      then (py_str (cell_of cols c r) =? sel)%string
      else true
  | None => true
  end.

Definition cell_matches (p : pattern) (v : value) : bool :=
  str_contains p false (str_lower (astype_str v)).

Definition search_pred (search : string) (r : row) : bool :=
  if Py.truthy search then
    match re_compile (Py.lower search) with
    | Some p => existsb (cell_matches p) r
    | None => false
    end
  else true.

Definition keep (df : DataFrame) (c : criteria) (r : row) : bool :=
  eq_pred (columns df) (division_col df) (sel_div c) r &&
  eq_pred (columns df) (risk_col df) (sel_risk c) r &&
  search_pred (search_q c) r.

End FilterEngine.

(** [c'] is [c] with further stages switched on: every stage that runs under
    [c] runs under [c'] with the same selection. *)
Definition adds_stages (c c' : criteria) : Prop :=
  (sel_div c = "All" \/ sel_div c' = sel_div c) /\
  (sel_risk c = "All" \/ sel_risk c' = sel_risk c) /\
  (search_q c = "" \/ search_q c' = search_q c).

(* ================================================================== *)
(** ** Workbook Loader (lines 24-36) *)

(** A sheet as [pd.read_excel(xls, sheet_name=s, dtype=object)] returns it:
    header cells and rows of cells. *)
Record RawSheet : Type := mkRawSheet {
  raw_header : list value;
  raw_rows : list row
}.

(** [s.ffill()]: [last] is the most recent cell that was not missing. *)
Fixpoint ffill_from (last : value) (l : list value) : list value :=
  match l with
  | [] => []
  | v :: t => if isna v then last :: ffill_from last t
              else v :: ffill_from v t
  end.

Definition ffill (l : list value) : list value := ffill_from NaN l.

Fixpoint replace_nth (j : nat) (v : value) (r : row) : row :=
  match j, r with
  | _, [] => []
  | O, _ :: t => v :: t
  | S j', x :: t => x :: replace_nth j' v t
  end.

Fixpoint set_cells (j : nat) (rs : list row) (s : list value) : list row :=
  match rs, s with
  | r :: rs', v :: s' => replace_nth j v r :: set_cells j rs' s'
  | _, _ => rs
  end.

Fixpoint append_cells (rs : list row) (s : list value) : list row :=
  match rs, s with
  | r :: rs', v :: s' => (r ++ [v]) :: append_cells rs' s'
  | _, _ => rs
  end.

(** [df[c] = s], for a series [s] aligned with the rows of [df] *)
Definition set_series (df : DataFrame) (c : string) (s : list value)
  : DataFrame :=
  match col_pos c (columns df) with
  | Some j => with_rows df (set_cells j (rows df) s)
  | None => mkDataFrame (columns df ++ [c]) (append_cells (rows df) s)
  end.

(** [df.columns = [str(c).strip() for c in df.columns]] *)
Definition strip_columns (raw : RawSheet) : DataFrame :=
  mkDataFrame (map (fun c => Py.strip (py_str c)) (raw_header raw))
              (raw_rows raw).

(** The body of the loop over the sheets (lines 31-35). *)
Definition normalize_sheet (raw : RawSheet) : DataFrame :=
  let df := strip_columns raw in
  let div_col := find_col "division" (columns df) in
  if bound div_col then
    match div_col with
    | Some c => set_series df c (ffill (series df c))
    | None => df
    end
  else df.

(** [load_workbook], given the sheets the reader found in the file. *)
Definition load_workbook (xls : list (string * RawSheet))
  : list (string * DataFrame) * list string :=
  (map (fun '(name, raw) => (name, normalize_sheet raw)) xls, map fst xls).

(* ================================================================== *)
(** ** Chart Builder (lines 156-167 and 172-191) *)

(** [s.fillna(fill)] *)
Definition fillna (fill : value) (l : list value) : list value :=
  map (fun v => if isna v then fill else v) l.

(** One more occurrence of [v] in a table of counts kept in order of first
    appearance. *)
Fixpoint count_into (v : value) (acc : list (value * nat))
  : list (value * nat) :=
  match acc with
  | [] => [(v, 1%nat)]
  | (k, n) :: t => if value_eqb k v then (k, S n) :: t
                   else (k, n) :: count_into v t
  end.

Fixpoint insert_desc (e : value * nat) (l : list (value * nat))
  : list (value * nat) :=
  match l with
  | [] => [e]
  | h :: t => if (snd h <=? snd e)%nat then e :: l
              else h :: insert_desc e t
  end.

(** [s.value_counts()]: missing cells dropped, one entry per distinct value,
    larger counts first.  The order among equal counts is the library's; the
    model keeps them in order of first appearance. *)
Definition value_counts (l : list value) : list (value * nat) :=
  let counted :=
    fold_left (fun acc v => count_into v acc)
              (filter (fun v => negb (isna v)) l) [] in
  fold_right insert_desc [] counted.

Inductive chart : Type :=
| Bar (title : string) (data : list (value * nat)) (height : option Z)
| Pie (title : string) (data : list (value * nat)) (height : option Z)
| Scatter (title : string) (xs ys : list Z).

(** Order of group keys: integers first, in increasing order, then texts in
    lexicographic order. *)
Definition value_leb (a b : value) : bool :=
  match a, b with
  | NaN, _ => true
  | _, NaN => false
  | Int x, Int y => (x <=? y)%Z
  | Int _, Str _ => true
  | Str _, Int _ => false
  | Str s, Str t => String.leb s t
  end.

Fixpoint insert_key (v : value) (l : list value) : list value :=
  match l with
  | [] => [v]
  | h :: t => if value_eqb h v then l
              else if value_leb v h then v :: l
              else h :: insert_key v t
  end.

(** Distinct values, sorted. *)
Definition sorted_keys (l : list value) : list value :=
  fold_right insert_key [] l.

Record Crosstab : Type := mkCrosstab {
  ct_columns : list value;
  ct_rows : list (value * list nat)
}.

Definition count_pair (h c : value) (pairs : list (value * value)) : nat :=
  List.length
    (filter (fun p => value_eqb (fst p) h && value_eqb (snd p) c) pairs).

(** [pd.crosstab(hs, cs)] *)
Definition crosstab (hs cs : list value) : Crosstab :=
  let pairs := combine hs cs in
  let ckeys := sorted_keys cs in
  mkCrosstab ckeys
    (map (fun h => (h, map (fun c => count_pair h c pairs) ckeys))
         (sorted_keys hs)).

(** [ct.reset_index().head(n)] *)
Definition ct_head (n : nat) (ct : Crosstab) : Crosstab :=
  mkCrosstab (ct_columns ct) (firstn n (ct_rows ct)).

Definition unknown : value := Str "Unknown".

(** [df[c].fillna('Unknown').value_counts().reset_index()] *)
Definition counts_of (df : DataFrame) (c : string) : list (value * nat) :=
  value_counts (fillna unknown (series df c)).

(** The chart of the PDF report (lines 157-167): the [elif]/[else] part
    first. *)
Definition placeholder_chart : chart :=
  Scatter "No chart available" [0%Z] [0%Z].

Definition risk_chart_or_placeholder (df : DataFrame) : chart :=
  match risk_col df with
  | Some k =>
      if Py.truthy k then Pie "JHAs by Risk Level" (counts_of df k) None
      else placeholder_chart
  | None => placeholder_chart
  end.

Definition pdf_chart (df : DataFrame) : chart :=
  match division_col df with
  | Some d =>
      if Py.truthy d then Bar "JHAs by Division" (counts_of df d) None
      else risk_chart_or_placeholder df
  | None => risk_chart_or_placeholder df
  end.

(** The dashboard column (lines 172-191). *)
Record Dashboard : Type := mkDashboard {
  fig_div : option chart;
  fig_risk : option chart;
  hazards_vs_controls : option Crosstab
}.

Definition dashboard (df : DataFrame) : Dashboard :=
  mkDashboard
    (match division_col df with
     | Some d => if Py.truthy d
                 then Some (Bar "JHAs by Division" (counts_of df d) (Some 400%Z))
                 else None
     | None => None
     end)
    (match risk_col df with
     | Some k => if Py.truthy k
                 then Some (Pie "JHAs by Risk Level" (counts_of df k) (Some 300%Z))
                 else None
     | None => None
     end)
    (match hazard_col df, control_col df with
     | Some h, Some c =>
         if Py.truthy h && Py.truthy c
         then Some (ct_head 200
                      (crosstab (fillna unknown (series df h))
                                (fillna unknown (series df c))))
         else None
     | _, _ => None
     end).

(* ================================================================== *)
(** ** Export Builder: the PDF report (lines 45-81) *)

(** The renderer of charts and the size arithmetic of the embedded image. *)
Class Renderer : Type := {
  png : Type;
  (** [chart_fig.to_image(format="png", width=800, height=400, scale=2)] *)
  to_image : chart -> result png;
  (** [int(ih*scale)] for [scale = min(1.0, max_w / iw)], as the
      floating-point arithmetic of lines 60-63 evaluates it *)
  drawn_height : png -> Z
}.

(** What the canvas records, in drawing order. *)
Inductive pdf_op {R : Renderer} : Type :=
| SetFont (face : string) (size : Z)
| DrawString (x y : Z) (text : string)
| DrawImage (img : png) (x y : Z)
| ShowPage.

(** A record of [df.to_dict(orient='records')]. *)
Definition record : Type := list (string * value).

Definition to_dict_records (df : DataFrame) : list record :=
  map (fun r => combine (columns df) r) (rows df).

(** [width, height = letter] *)
Definition page_width : Z := 612.
Definition page_height : Z := 792.

(** [f"{k}: {str(v)[:80]}"] *)
Definition pair_text (kv : string * value) : string :=
  fst kv ++ ": " ++ Py.slice_to 80 (py_str (snd kv)).

(** [" | ".join([... for k,v in r.items()])] *)
Definition row_text (r : record) : string :=
  Py.join " | " (map pair_text r).

(** [[text[j:j+200] for j in range(0, len(text), 200)]] *)
Definition text_lines (text : string) : list string :=
  map (fun j => substring j 200 text) (Py.range_step (String.length text) 200).

(** [rows = df_rows if len(df_rows) <= 50 else df_rows[:50]] *)
Definition dumped_rows (df_rows : list record) : list record :=
  if (List.length df_rows <=? 50)%nat then df_rows else firstn 50 df_rows.

Section Report.
Context {R : Renderer}.

(** The canvas state threaded through the loops: the vertical cursor and the
    operations recorded so far. *)
Definition canvas : Type := (Z * list pdf_op)%type.

(** The body of the inner loop (lines 73-78). *)
Definition draw_line (st : canvas) (tl : string) : canvas :=
  let '(y, ops) := st in
  let '(y, ops) :=
    if (y <? 60)%Z
    then ((page_height - 40)%Z, ops ++ [ShowPage; SetFont "Helvetica" 10])
    else (y, ops) in
  ((y - 12)%Z, ops ++ [DrawString 40 y tl]).

(** The body of the outer loop (lines 70-78). *)
Definition draw_row (st : canvas) (r : record) : canvas :=
  fold_left draw_line (text_lines (row_text r)) st.

(** Lines 58-65: [if img_bytes: ...] *)
Definition draw_chart (img_bytes : option png) (st : canvas) : canvas :=
  let '(y, ops) := st in
  match img_bytes with
  | Some img =>
      ((y - drawn_height img - 20)%Z,
       ops ++ [DrawImage img 40 (y - drawn_height img)%Z])
  | None => st
  end.

Definition make_pdf_report (title : string) (chart_fig : chart)
                           (df_rows : list record) : result (list pdf_op) :=
  img_bytes <- try_except (img <- to_image chart_fig ;; Ok (Some img))
                          (fun _ => Ok None) ;;
  let st : canvas :=
    ((page_height - 70)%Z,
     [SetFont "Helvetica-Bold" 16;
      DrawString 40 (page_height - 40)%Z title]) in
  let st := draw_chart img_bytes st in
  let st := (fst st, snd st ++ [SetFont "Helvetica" 10]) in
  let st := fold_left draw_row (dumped_rows df_rows) st in
  Ok (snd st).

(** The texts drawn, in order. *)
Fixpoint drawn_texts (ops : list pdf_op) : list string :=
  match ops with
  | [] => []
  | DrawString _ _ s :: t => s :: drawn_texts t
  | _ :: t => drawn_texts t
  end.

(** The images drawn, in order. *)
Fixpoint drawn_images (ops : list pdf_op) : list png :=
  match ops with
  | [] => []
  | DrawImage img _ _ :: t => img :: drawn_images t
  | _ :: t => drawn_images t
  end.

End Report.

(* ================================================================== *)
(** ** The page (lines 99-191) *)

(** [filtered.iloc[i]]: a negative position counts from the end. *)
Definition iloc (df : DataFrame) (i : Z) : result row :=
  let n := Z.of_nat (len df) in
  let k := if (i <? 0)%Z then (n + i)%Z else i in
  if (0 <=? k)%Z && (k <? n)%Z
  then match nth_error (rows df) (Z.to_nat k) with
       | Some r => Ok r
       | None => Raise IndexError
       end
  else Raise IndexError.

(** What the row-details panel shows. *)
Inductive detail_view : Type :=
| Info (msg : string)
| Json (r : record).

(** Bounds handed to the row-number widget (line 144). *)
Definition idx_min : Z := 0.
Definition idx_max (filtered : DataFrame) : Z :=
  Z.max 0 (Z.of_nat (len filtered) - 1).

(** Lines 141-146; [idx] is the value the row-number widget returns. *)
Definition row_details (filtered : DataFrame) (idx : Z) : result detail_view :=
  if (len filtered =? 0)%nat then Ok (Info "No rows to show details for.")
  else
    r <- iloc filtered idx ;;
    Ok (Json (combine (columns filtered) r)).

(** [f"JHA Report — {sheet_choice}"] *)
Definition report_title (sheet_choice : string) : string :=
  "JHA Report — " ++ sheet_choice.

Section Page.
Context {E : RegexEngine} {R : Renderer}.

Record page : Type := mkPage {
  filtered_rows : DataFrame;
  details : detail_view;
  pdf_report : option (list pdf_op);
  charts : Dashboard
}.

(** One run of the script on the chosen sheet [df]: [c] holds the values of
    the three filter controls, [idx] the value of the row-number widget and
    [pdf_clicked] whether the PDF button was pressed. *)
Definition run_page (sheet_choice : string) (df : DataFrame) (c : criteria)
                    (idx : Z) (pdf_clicked : bool) : result page :=
  filtered <- FilterEngine df c ;;
  view <- row_details filtered idx ;;
  pdf <- (if pdf_clicked
          then doc <- make_pdf_report (report_title sheet_choice)
                                      (pdf_chart df)
                                      (to_dict_records filtered) ;;
               Ok (Some doc)
          else Ok None) ;;
  Ok (mkPage filtered view pdf (dashboard df)).

End Page.

(* ================================================================== *)
(** ** Order-preserving selection and sample sheets *)

(** [l1] is [l2] with some elements left out, the others in place. *)
Inductive subseq {A : Type} : list A -> list A -> Prop :=
| subseq_nil : subseq [] []
| subseq_skip (x : A) (l1 l2 : list A) : subseq l1 l2 -> subseq l1 (x :: l2)
| subseq_keep (x : A) (l1 l2 : list A) :
    subseq l1 l2 -> subseq (x :: l1) (x :: l2).

(** The identity criteria. *)
Definition no_filter : criteria := mkCriteria "All" "All" "".

(** A sheet with three rows of division A and two of division B. *)
Definition sheet_3A_2B : DataFrame :=
  mkDataFrame ["Division"; "Task"; "Risk Level"]
    [[Str "A"; Str "Welding torch"; Str "High"];
     [Str "B"; Str "Forklift"; Str "Low"];
     [Str "A"; Str "Grinding"; Str "Medium"];
     [Str "A"; Str "Ladder work"; Str "Low"];
     [Str "B"; Str "Painting"; Str "High"]].

(** A sheet whose only row has an empty cell, and the same sheet with the
    cell filled in. *)
Definition sheet_with_blank : DataFrame :=
  mkDataFrame ["Task"; "Notes"] [[Str "Grinding"; NaN]].

Definition sheet_without_blank : DataFrame :=
  mkDataFrame ["Task"; "Notes"] [[Str "Grinding"; Str "dust"]].

(** A raw sheet whose division column is written once per group. *)
Definition raw_grouped : RawSheet :=
  mkRawSheet [Str " Division "; Str "Task"]
    [[Str "A"; Str "Welding"];
     [NaN; Str "Grinding"];
     [Str "B"; Str "Painting"];
     [NaN; Str "Sanding"];
     [NaN; Str "Lifting"]].

(** A reference renderer used to run the model on concrete inputs: every
    chart but the placeholder renders to an image of 1600 by 800 pixels,
    drawn 266 points high; rendering the placeholder raises. *)
Definition SampleRenderer : Renderer := {|
  png := (Z * Z)%type;
  to_image := fun fig =>
    match fig with
    | Scatter _ _ _ => Raise RenderError
    | _ => Ok (1600%Z, 800%Z)
    end;
  drawn_height := fun _ => 266%Z
|}.

(* ================================================================== *)
(** ** File discovery and start of the script (lines 13-22 and 85-90) *)

Definition DEFAULT_FILE : string := "JHA by Division.xlsx".

(** The working directory as the script sees it: [os.path.exists] and
    [os.listdir(".")]. *)
Record FileSystem : Type := mkFileSystem {
  path_exists : string -> bool;
  listdir : list string
}.

(** [f.lower().endswith(".xlsx") or f.lower().endswith(".xls")] *)
Definition has_excel_ext (f : string) : bool :=
  Py.endswith ".xlsx" (Py.lower f) || Py.endswith ".xls" (Py.lower f).

Definition find_excel_file (fs : FileSystem) : option string :=
  if path_exists fs DEFAULT_FILE then Some DEFAULT_FILE
  else List.find has_excel_ext (listdir fs).

(** [data_dict[sheet_choice]] on the mapping [load_workbook] returns. *)
Fixpoint dict_get {A : Type} (k : string) (d : list (string * A)) : option A :=
  match d with
  | [] => None
  | (k', v) :: t => if (k' =? k)%string then Some v else dict_get k t
  end.

(* ================================================================== *)
(** ** Options of the filter controls (lines 109-117) *)

(** [s.dropna()] *)
Definition dropna (l : list value) : list value :=
  filter (fun v => negb (isna v)) l.

(** [s.unique()] on texts: the distinct texts in order of first appearance. *)
Fixpoint unique (l : list string) : list string :=
  match l with
  | [] => []
  | x :: t => x :: filter (fun y => negb (y =? x)%string) (unique t)
  end.

Fixpoint insert_sorted (x : string) (l : list string) : list string :=
  match l with
  | [] => [x]
  | y :: t => if String.leb x y then x :: l else y :: insert_sorted x t
  end.

(** [sorted(l)] on texts *)
Definition sorted (l : list string) : list string :=
  fold_right insert_sorted [] l.

(** The order [sorted] puts texts in. *)
Definition str_le (a b : string) : Prop := String.leb a b = true.

(** [["All"] + sorted(df[col].dropna().astype(str).unique().tolist())] *)
Definition select_options (df : DataFrame) (col : string) : list string :=
  "All" :: sorted (unique (map py_str (dropna (series df col)))).

(* ================================================================== *)
(** ** Counting cells, for statements about the chart data *)

(** How many cells of [l] equal [v]. *)
Definition occurrences (v : value) (l : list value) : nat :=
  List.length (filter (value_eqb v) l).

(** The count a table of counts holds for [v]; none is zero. *)
Fixpoint tally_get (v : value) (acc : list (value * nat)) : nat :=
  match acc with
  | [] => O
  | (k, n) :: t => if value_eqb k v then n else tally_get v t
  end.

(** Larger counts first. *)
Definition count_ge (a b : value * nat) : Prop := (snd b <= snd a)%nat.

(** The sum of all the cells of a contingency table. *)
Definition ct_total (ct : Crosstab) : nat :=
  list_sum (map (fun r => list_sum (snd r)) (ct_rows ct)).

(** The order of group keys, as a relation. *)
Definition value_le (a b : value) : Prop := value_leb a b = true.

(** A sheet with a hazard column and a control column, one control missing. *)
Definition sheet_hazards : DataFrame :=
  mkDataFrame ["Hazard"; "Control Measure"]
    [[Str "Heat"; Str "Gloves"];
     [Str "Dust"; Str "Mask"];
     [Str "Heat"; NaN];
     [Str "Dust"; Str "Mask"]].

(* ================================================================== *)
(** ** Layout of the row dump, for statements about pagination *)

Section Layout.
Context {R : Renderer}.

(** The operations the inner loop records for the lines still to draw, the
    cursor being at [y]. *)
Fixpoint layout (y : Z) (lines : list string) : list pdf_op :=
  match lines with
  | [] => []
  | tl :: rest =>
      if (y <? 60)%Z
      then ShowPage :: SetFont "Helvetica" 10
           :: DrawString 40 (page_height - 40)%Z tl
           :: layout (page_height - 40 - 12)%Z rest
      else DrawString 40 y tl :: layout (y - 12)%Z rest
  end.

(** Where the texts are drawn, in order. *)
Fixpoint text_positions (ops : list pdf_op) : list (Z * Z) :=
  match ops with
  | [] => []
  | DrawString x y _ :: t => (x, y) :: text_positions t
  | _ :: t => text_positions t
  end.

(** Every page break is followed at once by the font of the dump and a line
    drawn at the top margin. *)
Fixpoint breaks_reset (ops : list pdf_op) : Prop :=
  match ops with
  | [] => True
  | ShowPage :: t =>
      (exists s rest,
          t = SetFont "Helvetica" 10
              :: DrawString 40 (page_height - 40)%Z s :: rest) /\
      breaks_reset t
  | _ :: t => breaks_reset t
  end.

(** How many texts each page holds, page by page. *)
Fixpoint texts_per_page (ops : list pdf_op) : list nat :=
  match ops with
  | [] => [O]
  | ShowPage :: t => O :: texts_per_page t
  | DrawString _ _ _ :: t =>
      match texts_per_page t with
      | n :: ns => S n :: ns
      | [] => [1%nat]
      end
  | _ :: t => texts_per_page t
  end.

End Layout.

(* ================================================================== *)
(** * Properties *)

(** ** Lists and masks *)

Lemma select_mask_map (f : row -> bool) (rs : list row) :
  select_mask rs (map f rs) = filter f rs.
Proof.
  induction rs as [|r rs IH]; simpl; [reflexivity|].
  rewrite IH. reflexivity.
Qed.

Lemma filter_all {A : Type} (f : A -> bool) (l : list A) :
  (forall x, In x l -> f x = true) -> filter f l = l.
Proof.
  induction l as [|a l IH]; simpl; intros H; [reflexivity|].
  rewrite (H a (or_introl eq_refl)). f_equal. apply IH.
  intros x Hx. apply H. right. exact Hx.
Qed.

Lemma filter_twice {A : Type} (f g : A -> bool) (l : list A) :
  filter f (filter g l) = filter (fun x => g x && f x) l.
Proof.
  induction l as [|a l IH]; simpl; [reflexivity|].
  destruct (g a); simpl; [destruct (f a)|]; rewrite IH; reflexivity.
Qed.

Lemma filter_implied {A : Type} (f g : A -> bool) (l : list A) :
  (forall x, In x l -> g x = true -> f x = true) ->
  filter f (filter g l) = filter g l.
Proof.
  intros H. apply filter_all. intros x Hx.
  apply filter_In in Hx. destruct Hx as [Hin Hg]. auto.
Qed.

Lemma filter_length_mono {A : Type} (f g : A -> bool) (l : list A) :
  (forall x, In x l -> f x = true -> g x = true) ->
  (List.length (filter f l) <= List.length (filter g l))%nat.
Proof.
  induction l as [|a l IH]; simpl; intros H; [lia|].
  assert (IH' := IH (fun x Hx => H x (or_intror Hx))).
  destruct (f a) eqn:Hf.
  - rewrite (H a (or_introl eq_refl) Hf). simpl. lia.
  - destruct (g a); simpl; lia.
Qed.

Lemma with_rows_same (df : DataFrame) : with_rows df (rows df) = df.
Proof. destruct df; reflexivity. Qed.

(** ** The Filter Engine as one selection *)

Section FilterFacts.
Context {E : RegexEngine}.

Lemma eq_stage_spec (col : option string) (sel : string) (df : DataFrame) :
  eq_stage col sel df
  = with_rows df (filter (eq_pred (columns df) col sel) (rows df)).
Proof.
  unfold eq_stage, eq_pred.
  destruct col as [c|].
  - destruct (Py.truthy c && negb (sel =? "All")%string).
    + unfold select_eq, eq_mask, series.
      rewrite map_map, select_mask_map. reflexivity.
    + rewrite filter_all by reflexivity. symmetry. apply with_rows_same.
  - rewrite filter_all by reflexivity. symmetry. apply with_rows_same.
Qed.

Lemma mapM_row_lambda (q : string) (rs : list row) :
  mapM (row_lambda q) rs
  = match re_compile q with
    | Some p => Ok (map (existsb (cell_matches p)) rs)
    | None => match rs with [] => Ok [] | _ :: _ => Raise ReError end
    end.
Proof.
  unfold row_lambda.
  destruct (re_compile q) as [p|].
  - induction rs as [|r rs IH]; [reflexivity|].
    cbn [mapM bind]. rewrite IH. reflexivity.
  - destruct rs; reflexivity.
Qed.

Lemma search_stage_spec (search : string) (df : DataFrame) :
  search_stage search df
  = if Py.truthy search then
      match re_compile (Py.lower search) with
      | Some p =>
          Ok (with_rows df (filter (existsb (cell_matches p)) (rows df)))
      | None =>
          match rows df with [] => Ok df | _ :: _ => Raise ReError end
      end
    else Ok df.
Proof.
  unfold search_stage. destruct (Py.truthy search); [|reflexivity].
  rewrite mapM_row_lambda.
  destruct (re_compile (Py.lower search)) as [p|]; simpl.
  - rewrite select_mask_map. reflexivity.
  - destruct df as [cols [|r rs]]; reflexivity.
Qed.

Lemma search_stage_Ok (search : string) (df out : DataFrame) :
  search_stage search df = Ok out ->
  out = with_rows df (filter (search_pred search) (rows df)).
Proof.
  rewrite search_stage_spec. unfold search_pred.
  destruct (Py.truthy search).
  - destruct (re_compile (Py.lower search)) as [p|].
    + intros H. injection H as <-. reflexivity.
    + destruct (rows df) eqn:Hr; [|discriminate].
      intros H. injection H as <-. simpl.
      rewrite <- Hr. symmetry. apply with_rows_same.
  - intros H. injection H as <-.
    rewrite filter_all by reflexivity. symmetry. apply with_rows_same.
Qed.

(** The first two stages together. *)
Lemma stages12_spec (df : DataFrame) (c : criteria) :
  eq_stage (risk_col df) (sel_risk c)
           (eq_stage (division_col df) (sel_div c) df)
  = with_rows df
      (filter (fun r =>
                 eq_pred (columns df) (division_col df) (sel_div c) r &&
                 eq_pred (columns df) (risk_col df) (sel_risk c) r)
              (rows df)).
Proof.
  rewrite (eq_stage_spec (division_col df)), eq_stage_spec. simpl.
  rewrite filter_twice. reflexivity.
Qed.

(** Whenever the engine returns, it returns the rows of the sheet that pass
    [keep], in the order of the sheet, under the header of the sheet. *)
Lemma FilterEngine_Ok (df out : DataFrame) (c : criteria) :
  FilterEngine df c = Ok out ->
  out = with_rows df (filter (keep df c) (rows df)).
Proof.
  unfold FilterEngine. rewrite stages12_spec. intros H.
  apply search_stage_Ok in H. subst out. simpl.
  rewrite filter_twice. reflexivity.
Qed.

Lemma FilterEngine_fixed (df out : DataFrame) (c : criteria) :
  FilterEngine df c = Ok out -> FilterEngine out c = Ok out.
Proof.
  intros H. pose proof (FilterEngine_Ok _ _ _ H) as Hout.
  unfold FilterEngine in *. rewrite stages12_spec in *.
  set (p12 := fun r =>
          eq_pred (columns df) (division_col df) (sel_div c) r &&
          eq_pred (columns df) (risk_col df) (sel_risk c) r) in *.
  assert (Hcols : columns out = columns df) by (subst out; reflexivity).
  assert (Hd : division_col out = division_col df)
    by (unfold division_col; rewrite Hcols; reflexivity).
  assert (Hr : risk_col out = risk_col df)
    by (unfold risk_col; rewrite Hcols; reflexivity).
  rewrite Hd, Hr, Hcols. fold p12.
  assert (H12 : filter p12 (rows out) = rows out).
  { subst out. simpl. apply filter_implied.
    intros x _ Hk. unfold keep in Hk. fold p12 in Hk.
    apply andb_prop in Hk. tauto. }
  rewrite H12, with_rows_same.
  rewrite search_stage_spec in *.
  destruct (Py.truthy (search_q c)) eqn:Ht; [|reflexivity].
  assert (Hs : forall x, In x (rows out) -> search_pred (search_q c) x = true).
  { subst out. simpl. intros x Hx. apply filter_In in Hx.
    destruct Hx as [_ Hk]. unfold keep in Hk. apply andb_prop in Hk. tauto. }
  unfold search_pred in Hs. rewrite Ht in Hs.
  destruct (re_compile (Py.lower (search_q c))) as [p|].
  - assert (Hf : filter (existsb (cell_matches p)) (rows out) = rows out)
      by (apply filter_all; exact Hs).
    rewrite Hf, with_rows_same. reflexivity.
  - destruct (rows out) as [|x xs]; [reflexivity|].
    specialize (Hs x (or_introl eq_refl)). discriminate.
Qed.

Lemma keep_adds_stages (df : DataFrame) (c c' : criteria) (r : row) :
  adds_stages c c' -> keep df c' r = true -> keep df c r = true.
Proof.
  intros (Hd & Hr & Hq). unfold keep.
  rewrite !andb_true_iff. intros [[H1 H2] H3]. repeat split.
  - destruct Hd as [Hd|Hd]; [|rewrite <- Hd; exact H1].
    unfold eq_pred. rewrite Hd. destruct (division_col df); [|reflexivity].
    rewrite andb_false_r. reflexivity.
  - destruct Hr as [Hr|Hr]; [|rewrite <- Hr; exact H2].
    unfold eq_pred. rewrite Hr. destruct (risk_col df); [|reflexivity].
    rewrite andb_false_r. reflexivity.
  - destruct Hq as [Hq|Hq]; [|rewrite <- Hq; exact H3].
    unfold search_pred. rewrite Hq. reflexivity.
Qed.

End FilterFacts.



Lemma subseq_filter {A : Type} (f : A -> bool) (l : list A) :
  subseq (filter f l) l.
Proof.
  induction l as [|a l IH]; simpl; [constructor|].
  destruct (f a); constructor; exact IH.
Qed.

Lemma find_col_nonempty (kw : string) (cols : list string) (c : string) :
  kw <> "" -> find_col kw cols = Some c -> Py.truthy c = true.
Proof.
  intros Hkw H. apply find_some in H. destruct H as [_ H].
  destruct c as [|a c]; [|reflexivity].
  destruct kw as [|k kw]; [congruence|]. discriminate.
Qed.

Lemma literal_search_PlainEngine : literal_search_ok PlainEngine.
Proof.
  intros q Hq. exists q. simpl. rewrite Hq. split; reflexivity.
Qed.

(* ------------------------------------------------------------------ *)
(** ** Claims on the Filter Engine *)

(** C1. Whenever the Filter Engine returns a result for a sheet and
    criteria, the result has at most as many rows as the sheet; and under
    criteria that switch on further stages while keeping those that already
    ran, the result has at most as many rows as before. *)
Theorem filter_engine_narrows (E : RegexEngine) (df out : DataFrame)
                              (c : criteria) :
  FilterEngine df c = Ok out ->
  (len out <= len df)%nat /\
  (forall c' out',
      adds_stages c c' -> FilterEngine df c' = Ok out' ->
      (len out' <= len out)%nat).
Proof.
  intros H. apply FilterEngine_Ok in H. subst out. unfold len. simpl. split.
  - apply filter_length_le.
  - intros c' out' Hadd H'. apply FilterEngine_Ok in H'. subst out'. simpl.
    apply filter_length_mono. intros r _. apply keep_adds_stages. exact Hadd.
Qed.

Lemma filter_engine_narrows_witness :
  (len sheet_3A_2B <= len sheet_3A_2B)%nat /\
  (forall c' out',
      adds_stages no_filter c' ->
      @FilterEngine PlainEngine sheet_3A_2B c' = Ok out' ->
      (len out' <= len sheet_3A_2B)%nat).
Proof.
  apply (filter_engine_narrows PlainEngine sheet_3A_2B sheet_3A_2B no_filter).
  reflexivity.
Defined.

(** C2. Applying the Filter Engine to its own result with the same criteria
    gives the same outcome as applying it once: the same table when it
    returns, the same exception when it raises. *)
Theorem filter_engine_idempotent (E : RegexEngine) (df : DataFrame)
                                 (c : criteria) :
  (out <- FilterEngine df c ;; FilterEngine out c) = FilterEngine df c.
Proof.
  destruct (FilterEngine df c) as [out|e] eqn:H; simpl; [|reflexivity].
  exact (FilterEngine_fixed df out c H).
Qed.

(** C6. When a division column is bound and the selection is not "All", the
    division stage keeps exactly the rows whose division cell, converted to
    text, equals the selection, in the order of the sheet; with the risk
    selection "All" and no query this is the result of the whole engine. *)
Theorem division_stage_exact (E : RegexEngine) (df : DataFrame)
                             (col sel : string) :
  division_col df = Some col -> sel <> "All" ->
  let kept :=
    filter (fun r => (py_str (cell_of (columns df) col r) =? sel)%string)
           (rows df) in
  eq_stage (division_col df) sel df = with_rows df kept /\
  FilterEngine df (mkCriteria sel "All" "") = Ok (with_rows df kept) /\
  subseq kept (rows df) /\
  (forall r, In r kept <->
             In r (rows df) /\ py_str (cell_of (columns df) col r) = sel).
Proof.
  intros Hcol Hsel kept.
  assert (Ht : Py.truthy col = true).
  { apply (find_col_nonempty "division" (columns df)); [discriminate|exact Hcol]. }
  assert (Hne : (sel =? "All")%string = false) by (apply String.eqb_neq; exact Hsel).
  assert (H1 : eq_stage (division_col df) sel df = with_rows df kept).
  { rewrite eq_stage_spec, Hcol. unfold eq_pred. rewrite Ht, Hne. reflexivity. }
  split; [exact H1|]. split; [|split].
  - unfold FilterEngine. simpl. rewrite H1.
    rewrite eq_stage_spec. unfold eq_pred. simpl.
    rewrite filter_all.
    + reflexivity.
    + intros x _. destruct (risk_col df); [|reflexivity].
      rewrite andb_false_r. reflexivity.
  - apply subseq_filter.
  - intros r. unfold kept. rewrite filter_In, String.eqb_eq. reflexivity.
Qed.

Lemma division_stage_exact_witness :
  @FilterEngine PlainEngine sheet_3A_2B (mkCriteria "A" "All" "")
  = Ok (with_rows sheet_3A_2B
          [[Str "A"; Str "Welding torch"; Str "High"];
           [Str "A"; Str "Grinding"; Str "Medium"];
           [Str "A"; Str "Ladder work"; Str "Low"]]).
Proof.
  refine (proj1 (proj2
    (division_stage_exact PlainEngine sheet_3A_2B "Division" "A" _ _))).
  - reflexivity.
  - discriminate.
Defined.

(** C10. With the identity criteria (division "All", risk "All", empty
    query) the Filter Engine returns the sheet itself: the empty query
    switches the search stage off. *)
Theorem identity_criteria_unchanged (E : RegexEngine) (df : DataFrame) :
  FilterEngine df (mkCriteria "All" "All" "") = Ok df.
Proof.
  unfold FilterEngine. rewrite stages12_spec. simpl.
  rewrite filter_all.
  - rewrite with_rows_same. reflexivity.
  - intros x _. unfold eq_pred. simpl.
    destruct (division_col df), (risk_col df);
      rewrite ?andb_false_r; reflexivity.
Qed.

(** The search stage, when it runs and returns, keeps the rows having a cell
    whose text form, lower-cased, the compiled query finds a match in; the
    text form of a missing cell is [nan]. *)
Lemma search_stage_keeps (E : RegexEngine) (search : string)
                         (df out : DataFrame) (r : row) :
  Py.truthy search = true ->
  search_stage search df = Ok out ->
  (In r (rows out) <->
   In r (rows df) /\
   exists p v, re_compile (Py.lower search) = Some p /\ In v r /\
               re_search p (Py.lower (py_str v)) = true).
Proof.
  intros Ht H. apply search_stage_Ok in H. subst out. simpl.
  rewrite filter_In. unfold search_pred. rewrite Ht.
  destruct (re_compile (Py.lower search)) as [p|].
  - rewrite existsb_exists. split.
    + intros [Hin (v & Hv & Hm)]. split; [exact Hin|].
      exists p, v. repeat split; assumption.
    + intros [Hin (p' & v & Hp & Hv & Hm)]. injection Hp as <-.
      split; [exact Hin|]. exists v. split; assumption.
  - split.
    + intros [_ Hf]. discriminate.
    + intros [_ (p & v & Hp & _)]. discriminate.
Qed.

(** C3. A row whose only match for the query [nan] is an empty cell is kept
    by the search stage: the text form of the missing value contains the
    query.  With the cell filled in, the same row is dropped. *)
Theorem blank_cell_matches_query_nan (E : RegexEngine) :
  literal_search_ok E ->
  FilterEngine sheet_with_blank (mkCriteria "All" "All" "nan")
  = Ok sheet_with_blank /\
  FilterEngine sheet_without_blank (mkCriteria "All" "All" "nan")
  = Ok (with_rows sheet_without_blank []).
Proof.
  intros HE. destruct (HE "nan" eq_refl) as (p & Hp & Hs).
  unfold FilterEngine. rewrite !stages12_spec, !search_stage_spec. simpl.
  change (String (Py.lower_char "n")
            (String (Py.lower_char "a") (String (Py.lower_char "n") "")))
    with "nan".
  rewrite Hp. unfold cell_matches, str_contains, str_lower, astype_str.
  rewrite !Hs. split; reflexivity.
Qed.

Lemma blank_cell_matches_query_nan_witness :
  @FilterEngine PlainEngine sheet_with_blank (mkCriteria "All" "All" "nan")
  = Ok sheet_with_blank /\
  @FilterEngine PlainEngine sheet_without_blank (mkCriteria "All" "All" "nan")
  = Ok (with_rows sheet_without_blank []).
Proof.
  apply (blank_cell_matches_query_nan PlainEngine).
  exact literal_search_PlainEngine.
Defined.

(* ------------------------------------------------------------------ *)
(** ** Forward fill *)

Lemma ffill_from_length (l : list value) (last : value) :
  List.length (ffill_from last l) = List.length l.
Proof.
  revert last. induction l as [|v t IH]; intros last; simpl; [reflexivity|].
  destruct (isna v); simpl; rewrite IH; reflexivity.
Qed.

Lemma isna_true (v : value) : isna v = true <-> v = NaN.
Proof. destruct v; simpl; split; congruence. Qed.

(** A cell still missing after the fill: nothing was seen before the column
    started and every cell down to it is missing. *)
Lemma ffill_from_blank (l : list value) (last : value) (i : nat) :
  nth_error (ffill_from last l) i = Some NaN ->
  last = NaN /\ forall k, (k <= i)%nat -> nth_error l k = Some NaN.
Proof.
  revert last i. induction l as [|v t IH]; intros last i H.
  - destruct i; discriminate.
  - simpl in H. destruct (isna v) eqn:Hv.
    + apply isna_true in Hv. subst v. destruct i as [|i]; simpl in H.
      * injection H as ->. split; [reflexivity|].
        intros k Hk. replace k with O by lia. reflexivity.
      * apply IH in H. destruct H as [Hl Hk]. split; [exact Hl|].
        intros [|k] Hle; [reflexivity|]. simpl. apply Hk. lia.
    + destruct i as [|i]; simpl in H.
      * injection H as ->. discriminate.
      * apply IH in H. destruct H as [-> _]. discriminate.
Qed.

(** While only missing cells are met, the fill writes the value carried. *)
Lemma ffill_from_carry (l : list value) (last : value) (i : nat) :
  (forall m, (m <= i)%nat -> nth_error l m = Some NaN) ->
  nth_error (ffill_from last l) i = Some last.
Proof.
  revert last i. induction l as [|v t IH]; intros last i H.
  - specialize (H O (Nat.le_0_l i)). discriminate.
  - assert (Hv : v = NaN).
    { specialize (H O (Nat.le_0_l i)). simpl in H. congruence. }
    subst v. simpl. destruct i as [|i]; [reflexivity|]. simpl.
    apply IH. intros m Hm. apply (H (S m)). lia.
Qed.

(** A missing cell takes the nearest value above it that is not missing. *)
Lemma ffill_from_nearest (l : list value) (last : value) (i k : nat)
                         (v : value) :
  (k < i)%nat -> nth_error l k = Some v -> v <> NaN ->
  (forall m, (k < m <= i)%nat -> nth_error l m = Some NaN) ->
  nth_error (ffill_from last l) i = Some v.
Proof.
  revert l last i. induction k as [|k IH]; intros l last i Hki Hk Hv Hrun.
  - destruct l as [|x t]; [discriminate|]. simpl in Hk. injection Hk as ->.
    destruct i as [|i]; [lia|]. simpl.
    destruct (isna v) eqn:Hna; [apply isna_true in Hna; contradiction|].
    simpl. apply ffill_from_carry. intros m Hm. apply (Hrun (S m)). lia.
  - destruct l as [|x t]; [discriminate|]. simpl in Hk.
    destruct i as [|i]; [lia|].
    assert (Hgo : forall last', nth_error (ffill_from last' t) i = Some v).
    { intros last'. apply IH; [lia|exact Hk|exact Hv|].
      intros m Hm. apply (Hrun (S m)). lia. }
    simpl. destruct (isna x); simpl; apply Hgo.
Qed.

(** A cell that is not missing is left as it is. *)
Lemma ffill_from_kept (l : list value) (last : value) (i : nat) (v : value) :
  nth_error l i = Some v -> v <> NaN ->
  nth_error (ffill_from last l) i = Some v.
Proof.
  revert last i. induction l as [|x t IH]; intros last i Hi Hv.
  - destruct i; discriminate.
  - destruct i as [|i]; simpl in Hi.
    + injection Hi as ->. simpl.
      destruct (isna v) eqn:Hna; [apply isna_true in Hna; contradiction|].
      reflexivity.
    + simpl. destruct (isna x); simpl; apply IH; assumption.
Qed.

(** ** Writing a column back *)

Lemma col_pos_bound (c : string) (cols : list string) (j : nat) :
  col_pos c cols = Some j -> (j < List.length cols)%nat.
Proof.
  revert j. induction cols as [|h t IH]; intros j; simpl; [discriminate|].
  destruct (h =? c)%string.
  - intros H. injection H as <-. lia.
  - destruct (col_pos c t) as [j'|]; simpl; [|discriminate].
    intros H. injection H as <-. specialize (IH j' eq_refl). lia.
Qed.

Lemma col_pos_In (c : string) (cols : list string) :
  In c cols -> exists j, col_pos c cols = Some j.
Proof.
  induction cols as [|h t IH]; simpl; [tauto|].
  intros Hin. destruct (h =? c)%string eqn:Heq; [exists O; reflexivity|].
  destruct Hin as [->|Hin]; [rewrite String.eqb_refl in Heq; discriminate|].
  destruct (IH Hin) as [j ->]. exists (S j). reflexivity.
Qed.

Lemma cell_replace_nth (j : nat) (v : value) (r : row) :
  (j < List.length r)%nat -> cell j (replace_nth j v r) = v.
Proof.
  unfold cell. revert j. induction r as [|x t IH]; intros j Hj; simpl in Hj.
  - lia.
  - destruct j as [|j]; simpl; [reflexivity|]. apply IH. lia.
Qed.

Lemma set_cells_column (j : nat) (rs : list row) (s : list value) :
  List.length s = List.length rs ->
  Forall (fun r => (j < List.length r)%nat) rs ->
  map (cell j) (set_cells j rs s) = s.
Proof.
  revert s. induction rs as [|r rs IH]; intros [|v s] Hlen Hall;
    simpl in *; try discriminate; [reflexivity|].
  inversion Hall; subst. rewrite cell_replace_nth by assumption.
  f_equal. apply IH; [lia|assumption].
Qed.

Lemma series_set_series (df : DataFrame) (c : string) (s : list value) :
  In c (columns df) -> rectangular df = true ->
  List.length s = List.length (rows df) ->
  series (set_series df c s) c = s.
Proof.
  intros Hin Hrect Hlen.
  destruct (col_pos_In c (columns df) Hin) as [j Hj].
  unfold series, set_series, cell_of. rewrite Hj. simpl. rewrite Hj.
  apply set_cells_column; [exact Hlen|].
  apply col_pos_bound in Hj. unfold rectangular in Hrect.
  rewrite forallb_forall in Hrect. apply Forall_forall. intros r Hr.
  specialize (Hrect r Hr). apply Nat.eqb_eq in Hrect. lia.
Qed.

(* ------------------------------------------------------------------ *)
(** ** Claim on the Workbook Loader *)

(** C4. For a sheet with a division-like column, the loader leaves that
    column forward-filled: a cell is still blank only if every cell above it
    was blank, a blank cell holds the nearest value above it that was not
    blank, and the other cells are as they were. *)
Theorem loader_forward_fills (raw : RawSheet) (c : string) :
  find_col "division" (columns (strip_columns raw)) = Some c ->
  rectangular (strip_columns raw) = true ->
  let before := series (strip_columns raw) c in
  let after := series (normalize_sheet raw) c in
  after = ffill before /\
  (forall i, nth_error after i = Some NaN ->
     forall k, (k <= i)%nat ->
       nth_error before k = Some NaN /\ nth_error after k = Some NaN) /\
  (forall i k v, (k < i)%nat -> nth_error before k = Some v -> v <> NaN ->
     (forall m, (k < m <= i)%nat -> nth_error before m = Some NaN) ->
     nth_error after i = Some v) /\
  (forall i v, nth_error before i = Some v -> v <> NaN ->
     nth_error after i = Some v).
Proof.
  intros Hcol Hrect before after.
  assert (Hafter : after = ffill before).
  { unfold after, normalize_sheet. rewrite Hcol.
    assert (Ht : Py.truthy c = true)
      by (apply (find_col_nonempty "division" (columns (strip_columns raw)));
          [discriminate|exact Hcol]).
    simpl. rewrite Ht. apply series_set_series.
    - apply find_some in Hcol. tauto.
    - exact Hrect.
    - unfold ffill. rewrite ffill_from_length. unfold series.
      apply length_map. }
  split; [exact Hafter|]. rewrite Hafter. unfold ffill. split; [|split].
  - intros i Hi k Hk.
    destruct (ffill_from_blank _ _ _ Hi) as [_ Hb]. split; [auto|].
    apply ffill_from_carry. intros m Hm. apply Hb. lia.
  - intros i k v. apply ffill_from_nearest.
  - intros i v. apply ffill_from_kept.
Qed.

Lemma loader_forward_fills_witness :
  series (normalize_sheet raw_grouped) "Division"
  = [Str "A"; Str "A"; Str "B"; Str "B"; Str "B"].
Proof.
  refine (proj1 (loader_forward_fills raw_grouped "Division" _ _));
    reflexivity.
Defined.

(* ------------------------------------------------------------------ *)
(** ** Slices and line wrapping *)

Lemma substring_of_empty (a n : nat) : substring a n "" = "".
Proof. destruct a, n; reflexivity. Qed.

Lemma substring_0_split (n m : nat) (s : string) :
  (substring 0 n s ++ substring n m s)%string = substring 0 (n + m) s.
Proof.
  revert n. induction s as [|x s IH]; intros n.
  - rewrite !substring_of_empty. reflexivity.
  - destruct n as [|n]; simpl; [reflexivity|]. rewrite IH. reflexivity.
Qed.

Lemma substring_split (a n m : nat) (s : string) :
  (substring a n s ++ substring (a + n) m s)%string
  = substring a (n + m) s.
Proof.
  revert a. induction s as [|x s IH]; intros a.
  - rewrite !substring_of_empty. reflexivity.
  - destruct a as [|a]; [apply substring_0_split|]. simpl. apply IH.
Qed.

Lemma substring_length_le (a n : nat) (s : string) :
  (String.length (substring a n s) <= n)%nat.
Proof.
  revert a n. induction s as [|x s IH]; intros a n.
  - rewrite substring_of_empty. simpl. lia.
  - destruct a as [|a]; [|simpl; apply IH].
    destruct n as [|n]; simpl; [lia|]. specialize (IH O n). lia.
Qed.

Lemma substring_0_length (n : nat) (s : string) :
  String.length (substring 0 n s) = Nat.min n (String.length s).
Proof.
  revert n. induction s as [|x s IH]; intros n.
  - rewrite substring_of_empty. simpl. lia.
  - destruct n as [|n]; simpl; [reflexivity|]. rewrite IH. reflexivity.
Qed.

Lemma substring_0_all (n : nat) (s : string) :
  (String.length s <= n)%nat -> substring 0 n s = s.
Proof.
  revert n. induction s as [|x s IH]; intros n Hn.
  - apply substring_of_empty.
  - destruct n as [|n]; simpl in *; [lia|]. rewrite IH by lia. reflexivity.
Qed.

Lemma substring_0_prefix (n : nat) (s : string) :
  prefix (substring 0 n s) s = true.
Proof.
  revert n. induction s as [|x s IH]; intros n.
  - rewrite substring_of_empty. reflexivity.
  - destruct n as [|n]; simpl; [reflexivity|].
    destruct (ascii_dec x x); [apply IH|congruence].
Qed.

Lemma substring_past_end (a m : nat) (s : string) :
  (String.length s <= a)%nat -> substring a m s = "".
Proof.
  revert a. induction s as [|x s IH]; intros a Ha.
  - apply substring_of_empty.
  - destruct a as [|a]; simpl in *; [lia|]. apply IH. lia.
Qed.

Lemma append_empty_r (s : string) : (s ++ "")%string = s.
Proof. induction s as [|x s IH]; simpl; [|rewrite IH]; reflexivity. Qed.

Lemma concat_empty_cons (x : string) (xs : list string) :
  String.concat "" (x :: xs) = (x ++ String.concat "" xs)%string.
Proof.
  destruct xs; simpl; [rewrite append_empty_r|]; reflexivity.
Qed.

(** The slices taken at the positions of the range, put back together. *)
Lemma chunks_concat (text : string) (step fuel start : nat) :
  (0 < step)%nat -> (String.length text - start <= fuel)%nat ->
  String.concat ""
    (map (fun j => substring j step text)
         (Py.range_from fuel start (String.length text) step))
  = substring start (String.length text - start) text.
Proof.
  intros Hstep. revert start.
  induction fuel as [|fuel IH]; intros start Hfuel; simpl.
  - replace (String.length text - start)%nat with O by lia.
    destruct (Nat.le_gt_cases (String.length text) start) as [Hle|Hgt].
    + rewrite substring_past_end by exact Hle. reflexivity.
    + lia.
  - destruct (start <? String.length text)%nat eqn:Hlt.
    + apply Nat.ltb_lt in Hlt. cbn [map]. rewrite concat_empty_cons.
      rewrite IH by lia.
      destruct (Nat.le_gt_cases (start + step) (String.length text))
        as [Hle|Hgt].
      * rewrite substring_split. f_equal. lia.
      * rewrite (substring_past_end (start + step)) by lia.
        rewrite append_empty_r.
        replace step with ((String.length text - start)
                           + (step - (String.length text - start)))%nat
          by lia.
        rewrite <- substring_split.
        rewrite (substring_past_end (start + (String.length text - start)))
          by lia.
        apply append_empty_r.
    + apply Nat.ltb_ge in Hlt.
      rewrite substring_past_end by exact Hlt. reflexivity.
Qed.

Lemma text_lines_concat (text : string) :
  String.concat "" (text_lines text) = text.
Proof.
  unfold text_lines, Py.range_step.
  rewrite chunks_concat by lia.
  rewrite Nat.sub_0_r. apply substring_0_all. lia.
Qed.

Lemma text_lines_width (text : string) :
  Forall (fun l => (String.length l <= 200)%nat) (text_lines text).
Proof.
  unfold text_lines. apply Forall_forall. intros l Hl.
  apply in_map_iff in Hl. destruct Hl as (j & <- & _).
  apply substring_length_le.
Qed.

Lemma dumped_rows_firstn (df_rows : list record) :
  dumped_rows df_rows = firstn 50 df_rows.
Proof.
  unfold dumped_rows.
  destruct (List.length df_rows <=? 50)%nat eqn:H; [|reflexivity].
  apply Nat.leb_le in H. symmetry. apply firstn_all2. exact H.
Qed.

(* ------------------------------------------------------------------ *)
(** ** What the report draws *)

Section ReportFacts.
Context {R : Renderer}.

Lemma drawn_texts_app (a b : list pdf_op) :
  drawn_texts (a ++ b) = drawn_texts a ++ drawn_texts b.
Proof.
  induction a as [|op a IH]; simpl; [reflexivity|].
  destruct op; simpl; rewrite IH; reflexivity.
Qed.

Lemma drawn_images_app (a b : list pdf_op) :
  drawn_images (a ++ b) = drawn_images a ++ drawn_images b.
Proof.
  induction a as [|op a IH]; simpl; [reflexivity|].
  destruct op; simpl; rewrite IH; reflexivity.
Qed.

Lemma draw_line_drawn (st : canvas) (tl : string) :
  drawn_texts (snd (draw_line st tl)) = drawn_texts (snd st) ++ [tl] /\
  drawn_images (snd (draw_line st tl)) = drawn_images (snd st).
Proof.
  destruct st as [y ops]. unfold draw_line.
  destruct (y <? 60)%Z; simpl;
    rewrite !drawn_texts_app, !drawn_images_app; simpl;
    rewrite ?app_nil_r; split; reflexivity.
Qed.

Lemma draw_lines_drawn (lines : list string) (st : canvas) :
  drawn_texts (snd (fold_left draw_line lines st))
  = drawn_texts (snd st) ++ lines /\
  drawn_images (snd (fold_left draw_line lines st)) = drawn_images (snd st).
Proof.
  revert st. induction lines as [|tl lines IH]; intros st; simpl.
  - rewrite app_nil_r. split; reflexivity.
  - destruct (IH (draw_line st tl)) as [Ht Hi].
    destruct (draw_line_drawn st tl) as [Ht1 Hi1].
    rewrite Ht, Hi, Ht1, Hi1, <- app_assoc. split; reflexivity.
Qed.

Lemma draw_rows_drawn (rs : list record) (st : canvas) :
  drawn_texts (snd (fold_left draw_row rs st))
  = drawn_texts (snd st) ++ flat_map (fun r => text_lines (row_text r)) rs /\
  drawn_images (snd (fold_left draw_row rs st)) = drawn_images (snd st).
Proof.
  revert st. induction rs as [|r rs IH]; intros st; simpl.
  - rewrite app_nil_r. split; reflexivity.
  - destruct (IH (draw_row st r)) as [Ht Hi]. unfold draw_row in *.
    destruct (draw_lines_drawn (text_lines (row_text r)) st) as [Ht1 Hi1].
    rewrite Ht, Hi, Ht1, Hi1, <- app_assoc. split; reflexivity.
Qed.

(** The report is always produced; its texts are the title and the wrapped
    dump of the first rows; its only image is the rendered chart. *)
Lemma make_pdf_report_drawn (title : string) (fig : chart)
                            (df_rows : list record) :
  exists ops,
    make_pdf_report title fig df_rows = Ok ops /\
    drawn_texts ops
    = title :: flat_map (fun r => text_lines (row_text r))
                        (firstn 50 df_rows) /\
    drawn_images ops
    = match to_image fig with Ok img => [img] | Raise _ => [] end.
Proof.
  unfold make_pdf_report. rewrite dumped_rows_firstn.
  destruct (to_image fig) as [img|e]; simpl; eexists; (split; [reflexivity|]);
    match goal with |- context [fold_left draw_row ?rs ?st] =>
      destruct (draw_rows_drawn rs st) as [Ht Hi] end;
    rewrite Ht, Hi; simpl; split; reflexivity.
Qed.

End ReportFacts.

(* ------------------------------------------------------------------ *)
(** ** Claims on the PDF report *)

(** C7. The report is produced for every filtered result.  Its row texts are
    those of the first 50 rows, which are all the rows when there are fewer;
    a row is rendered as its [column: value] pairs joined by a separator,
    each value cut to its first 80 characters; the text of a row is split
    into lines of at most 200 characters that together are that text.  With
    no rows the report holds the title, the chart image when the chart was
    rendered, and no other text. *)
Theorem pdf_row_dump (R : Renderer) (title : string) (fig : chart)
                     (df_rows : list record) :
  exists ops,
    make_pdf_report title fig df_rows = Ok ops /\
    drawn_texts ops
    = title :: flat_map (fun r => text_lines (row_text r))
                        (firstn 50 df_rows) /\
    List.length (firstn 50 df_rows) = Nat.min 50 (List.length df_rows) /\
    (forall r,
        row_text r
        = String.concat " | "
            (map (fun kv => (fst kv ++ ": "
                             ++ substring 0 80 (py_str (snd kv)))%string) r)) /\
    (forall v,
        String.length (substring 0 80 (py_str v))
        = Nat.min 80 (String.length (py_str v)) /\
        prefix (substring 0 80 (py_str v)) (py_str v) = true) /\
    (forall text,
        Forall (fun l => (String.length l <= 200)%nat) (text_lines text) /\
        String.concat "" (text_lines text) = text) /\
    (df_rows = [] ->
     drawn_texts ops = [title] /\
     forall img, to_image fig = Ok img ->
       ops = [SetFont "Helvetica-Bold" 16;
              DrawString 40 (page_height - 40)%Z title;
              DrawImage img 40 (page_height - 70 - drawn_height img)%Z;
              SetFont "Helvetica" 10]).
Proof.
  destruct (make_pdf_report_drawn title fig df_rows) as (ops & Hops & Ht & Hi).
  exists ops. split; [exact Hops|]. split; [exact Ht|].
  split; [apply length_firstn|]. split; [reflexivity|].
  split; [intros v; split; [apply substring_0_length|apply substring_0_prefix]|].
  split; [intros text; split; [apply text_lines_width|apply text_lines_concat]|].
  intros ->. split; [exact Ht|].
  intros img Himg. unfold make_pdf_report in Hops. rewrite Himg in Hops.
  simpl in Hops. injection Hops as <-. reflexivity.
Qed.

(** C8. When rendering the chart raises, the report is still produced: it
    has no image, and its texts are the title and the same row dump as a
    report whose chart was rendered. *)
Theorem render_failure_recovered (R : Renderer) (title : string) (fig : chart)
                                 (df_rows : list record) (e : exn) :
  to_image fig = Raise e ->
  exists ops,
    make_pdf_report title fig df_rows = Ok ops /\
    drawn_images ops = [] /\
    drawn_texts ops
    = title :: flat_map (fun r => text_lines (row_text r))
                        (firstn 50 df_rows) /\
    (forall (R' : Renderer) (fig' : chart) (ops' : list (@pdf_op R')),
        @make_pdf_report R' title fig' df_rows = Ok ops' ->
        drawn_texts ops' = drawn_texts ops).
Proof.
  intros He.
  destruct (make_pdf_report_drawn title fig df_rows) as (ops & Hops & Ht & Hi).
  exists ops. rewrite He in Hi. repeat split; try assumption.
  intros R' fig' ops' Hops'.
  destruct (@make_pdf_report_drawn R' title fig' df_rows)
    as (ops2 & Hops2 & Ht2 & _).
  rewrite Hops2 in Hops'. injection Hops' as <-. rewrite Ht, Ht2.
  reflexivity.
Qed.

Lemma render_failure_recovered_witness :
  exists ops,
    @make_pdf_report SampleRenderer "JHA Report" placeholder_chart
                     (to_dict_records sheet_3A_2B) = Ok ops /\
    drawn_images ops = [] /\
    drawn_texts ops
    = "JHA Report"
      :: flat_map (fun r => text_lines (row_text r))
                  (firstn 50 (to_dict_records sheet_3A_2B)) /\
    (forall (R' : Renderer) (fig' : chart) (ops' : list (@pdf_op R')),
        @make_pdf_report R' "JHA Report" fig' (to_dict_records sheet_3A_2B)
        = Ok ops' ->
        drawn_texts ops' = drawn_texts ops).
Proof.
  apply (render_failure_recovered SampleRenderer "JHA Report"
           placeholder_chart (to_dict_records sheet_3A_2B) RenderError).
  reflexivity.
Defined.

Lemma pdf_row_dump_witness :
  exists ops,
    @make_pdf_report SampleRenderer "JHA Report" (pdf_chart sheet_3A_2B) []
    = Ok ops /\
    drawn_texts ops = ["JHA Report"] /\
    ops = [SetFont "Helvetica-Bold" 16;
           DrawString 40 752 "JHA Report";
           @DrawImage SampleRenderer (1600%Z, 800%Z) 40 456;
           SetFont "Helvetica" 10].
Proof.
  destruct (pdf_row_dump SampleRenderer "JHA Report"
              (pdf_chart sheet_3A_2B) [])
    as (ops & Hops & _ & _ & _ & _ & _ & Hempty).
  exists ops. destruct (Hempty eq_refl) as [Ht Hi].
  split; [exact Hops|]. split; [exact Ht|]. apply Hi. reflexivity.
Defined.

(* ------------------------------------------------------------------ *)
(** ** Claims on the page *)

Lemma iloc_in_bounds (df : DataFrame) (i : Z) :
  (0 <= i < Z.of_nat (len df))%Z ->
  exists r, nth_error (rows df) (Z.to_nat i) = Some r /\ iloc df i = Ok r.
Proof.
  intros Hi. unfold iloc.
  destruct (i <? 0)%Z eqn:Hneg; [apply Z.ltb_lt in Hneg; lia|].
  assert (Hb : ((0 <=? i)%Z && (i <? Z.of_nat (len df))%Z) = true).
  { apply andb_true_iff. split; [apply Z.leb_le|apply Z.ltb_lt]; lia. }
  rewrite Hb.
  destruct (nth_error (rows df) (Z.to_nat i)) as [r|] eqn:Hn.
  - exists r. split; reflexivity.
  - apply nth_error_None in Hn. unfold len in Hi. lia.
Qed.

Lemma row_details_empty (filtered : DataFrame) (idx : Z) :
  len filtered = 0%nat ->
  row_details filtered idx = Ok (Info "No rows to show details for.").
Proof. unfold row_details. intros ->. reflexivity. Qed.

Lemma row_details_lookup (filtered : DataFrame) (idx : Z) :
  (0 <= idx < Z.of_nat (len filtered))%Z ->
  exists r,
    nth_error (rows filtered) (Z.to_nat idx) = Some r /\
    row_details filtered idx = Ok (Json (combine (columns filtered) r)).
Proof.
  intros Hidx. unfold row_details.
  destruct (iloc_in_bounds filtered idx Hidx) as (r & Hr & Hi).
  exists r. split; [exact Hr|].
  destruct (len filtered =? 0)%nat eqn:H0; [apply Nat.eqb_eq in H0; lia|].
  rewrite Hi. reflexivity.
Qed.

(** C9. With no filtered rows the row-details panel shows its
    nothing-to-show message and looks no row up, whatever the widget holds;
    with filtered rows, a widget value within the bounds the widget was given
    is the position of a row, and the panel shows that row. *)
Theorem row_details_in_bounds (filtered : DataFrame) (idx : Z) :
  (len filtered = 0%nat ->
   row_details filtered idx = Ok (Info "No rows to show details for.")) /\
  (len filtered <> 0%nat ->
   (idx_min <= idx <= idx_max filtered)%Z ->
   (0 <= idx <= Z.of_nat (len filtered) - 1)%Z /\
   exists r,
     nth_error (rows filtered) (Z.to_nat idx) = Some r /\
     row_details filtered idx = Ok (Json (combine (columns filtered) r))).
Proof.
  split.
  - apply row_details_empty.
  - intros Hn [Hlo Hhi]. unfold idx_min, idx_max in *.
    assert (Hrange : (0 <= idx <= Z.of_nat (len filtered) - 1)%Z) by lia.
    split; [exact Hrange|]. apply row_details_lookup. lia.
Qed.

Lemma row_details_in_bounds_witness :
  row_details sheet_3A_2B 4
  = Ok (Json [("Division", Str "B"); ("Task", Str "Painting");
              ("Risk Level", Str "High")]) /\
  row_details (with_rows sheet_3A_2B []) 4
  = Ok (Info "No rows to show details for.").
Proof.
  split.
  - destruct (proj2 (row_details_in_bounds sheet_3A_2B 4))
      as (_ & r & Hr & Hd).
    + discriminate.
    + unfold idx_min, idx_max. simpl. lia.
    + injection Hr as <-. exact Hd.
  - apply (proj1 (row_details_in_bounds (with_rows sheet_3A_2B []) 4)).
    reflexivity.
Defined.

Section PageFacts.
Context {E : RegexEngine} {R : Renderer}.

Lemma run_page_Ok (name : string) (df : DataFrame) (c : criteria) (idx : Z)
                  (clicked : bool) (p : page) :
  run_page name df c idx clicked = Ok p ->
  FilterEngine df c = Ok (filtered_rows p) /\
  row_details (filtered_rows p) idx = Ok (details p) /\
  charts p = dashboard df /\
  (forall doc, pdf_report p = Some doc ->
     make_pdf_report (report_title name) (pdf_chart df)
                     (to_dict_records (filtered_rows p)) = Ok doc).
Proof.
  unfold run_page.
  destruct (FilterEngine df c) as [f|e] eqn:HF; cbn [bind]; [|discriminate].
  destruct (row_details f idx) as [v|e] eqn:Hv; cbn [bind]; [|discriminate].
  destruct clicked.
  - destruct (make_pdf_report _ _ _) as [doc|e] eqn:Hdoc; cbn [bind];
      [|discriminate].
    intros H. injection H as <-. cbn.
    split; [reflexivity|]. split; [exact Hv|]. split; [reflexivity|].
    intros d Hd. injection Hd as <-. exact Hdoc.
  - cbn [bind]. intros H. injection H as <-. cbn.
    split; [reflexivity|]. split; [exact Hv|]. split; [reflexivity|].
    intros d Hd. discriminate.
Qed.


End PageFacts.

(** C5. Whatever the filter criteria, the row-number value and the PDF
    button, a run of the page on a sheet shows the dashboard aggregates of
    the whole sheet (division counts, risk counts, hazard by control table),
    and a report it generates embeds the rendering of the chart built from
    the whole sheet: two runs on the same sheet agree on all of them. *)
Theorem charts_ignore_criteria
  (E : RegexEngine) (R : Renderer) (name : string) (df : DataFrame)
  (c1 c2 : criteria) (idx1 idx2 : Z) (clicked1 clicked2 : bool)
  (p1 p2 : page) :
  run_page name df c1 idx1 clicked1 = Ok p1 ->
  run_page name df c2 idx2 clicked2 = Ok p2 ->
  charts p1 = dashboard df /\
  charts p2 = charts p1 /\
  (forall doc1 doc2,
      pdf_report p1 = Some doc1 -> pdf_report p2 = Some doc2 ->
      drawn_images doc1
      = match to_image (pdf_chart df) with Ok img => [img] | Raise _ => [] end
      /\ drawn_images doc2 = drawn_images doc1).
Proof.
  intros H1 H2.
  apply run_page_Ok in H1. destruct H1 as (_ & _ & Hc1 & Hd1).
  apply run_page_Ok in H2. destruct H2 as (_ & _ & Hc2 & Hd2).
  split; [exact Hc1|]. split; [congruence|].
  intros doc1 doc2 Hp1 Hp2.
  specialize (Hd1 doc1 Hp1). specialize (Hd2 doc2 Hp2).
  destruct (make_pdf_report_drawn (report_title name) (pdf_chart df)
              (to_dict_records (filtered_rows p1))) as (o1 & Ho1 & _ & Hi1).
  destruct (make_pdf_report_drawn (report_title name) (pdf_chart df)
              (to_dict_records (filtered_rows p2))) as (o2 & Ho2 & _ & Hi2).
  rewrite Ho1 in Hd1. injection Hd1 as <-.
  rewrite Ho2 in Hd2. injection Hd2 as <-.
  rewrite Hi1, Hi2. split; reflexivity.
Qed.

Lemma charts_ignore_criteria_witness :
  exists p1 p2,
    @run_page PlainEngine SampleRenderer "Sheet1" sheet_3A_2B
              no_filter 0 true = Ok p1 /\
    @run_page PlainEngine SampleRenderer "Sheet1" sheet_3A_2B
              (mkCriteria "A" "Low" "ladder") 0 true = Ok p2 /\
    len (filtered_rows p1) = 5%nat /\
    len (filtered_rows p2) = 1%nat /\
    charts p1 = dashboard sheet_3A_2B /\
    charts p2 = charts p1 /\
    (forall doc1 doc2,
        pdf_report p1 = Some doc1 -> pdf_report p2 = Some doc2 ->
        drawn_images doc1 = [(1600%Z, 800%Z)] /\
        drawn_images doc2 = drawn_images doc1).
Proof.
  destruct (@run_page PlainEngine SampleRenderer "Sheet1" sheet_3A_2B
              no_filter 0 true) as [p1|e1] eqn:H1;
    [|vm_compute in H1; discriminate H1].
  destruct (@run_page PlainEngine SampleRenderer "Sheet1" sheet_3A_2B
              (mkCriteria "A" "Low" "ladder") 0 true) as [p2|e2] eqn:H2;
    [|vm_compute in H2; discriminate H2].
  exists p1, p2. split; [reflexivity|]. split; [reflexivity|].
  split; [vm_compute in H1; injection H1 as <-; reflexivity|].
  split; [vm_compute in H2; injection H2 as <-; reflexivity|].
  exact (charts_ignore_criteria PlainEngine SampleRenderer "Sheet1"
           sheet_3A_2B no_filter (mkCriteria "A" "Low" "ladder") 0 0
           true true p1 p2 H1 H2).
Defined.

(* ================================================================== *)
(** * Further properties of the code *)

(** ** The Filter Engine: selection, order of stages, failure *)


Lemma lower_empty (s : string) : Py.lower s = "" <-> s = "".
Proof. destruct s; simpl; split; congruence. Qed.

Lemma truthy_lower (s : string) : Py.truthy (Py.lower s) = Py.truthy s.
Proof. destruct s; reflexivity. Qed.



(** X2. The division stage and the risk stage commute: running them in
    either order gives the same table. *)
Theorem equality_stages_commute (col1 col2 : option string)
                                (sel1 sel2 : string) (df : DataFrame) :
  eq_stage col2 sel2 (eq_stage col1 sel1 df)
  = eq_stage col1 sel1 (eq_stage col2 sel2 df).
Proof.
  rewrite (eq_stage_spec col1 sel1 df), (eq_stage_spec col2 sel2 df).
  rewrite !eq_stage_spec. unfold with_rows. simpl. rewrite !filter_twice.
  f_equal. apply filter_ext. intros r. apply andb_comm.
Qed.

(** X3. The case of the query does not matter: two queries with the same
    lower-case form give the same outcome, whatever the other criteria. *)
Theorem query_case_is_ignored (E : RegexEngine) (df : DataFrame)
                              (d r q1 q2 : string) :
  Py.lower q1 = Py.lower q2 ->
  FilterEngine df (mkCriteria d r q1) = FilterEngine df (mkCriteria d r q2).
Proof.
  intros Hq. unfold FilterEngine, search_stage. simpl.
  rewrite <- (truthy_lower q1), <- (truthy_lower q2), Hq. reflexivity.
Qed.

Lemma query_case_is_ignored_witness :
  @FilterEngine PlainEngine sheet_3A_2B (mkCriteria "All" "All" "WeLD")
  = @FilterEngine PlainEngine sheet_3A_2B (mkCriteria "All" "All" "weld").
Proof.
  apply (query_case_is_ignored PlainEngine sheet_3A_2B
           "All" "All" "WeLD" "weld").
  reflexivity.
Defined.





(* ------------------------------------------------------------------ *)
(** ** The options of the filter controls *)

Lemma unique_In (l : list string) (x : string) :
  In x (unique l) <-> In x l.
Proof.
  induction l as [|a l IH]; simpl; [tauto|].
  rewrite filter_In, IH. split.
  - intros [H|[H _]]; auto.
  - intros [H|H]; [left; exact H|].
    destruct (String.eqb_spec x a) as [->|Hne]; [left; reflexivity|].
    right. split; [exact H|]. reflexivity.
Qed.

Lemma NoDup_filter {A : Type} (f : A -> bool) (l : list A) :
  NoDup l -> NoDup (filter f l).
Proof.
  induction 1 as [|a l Hn Hl IH]; simpl; [constructor|].
  destruct (f a); [|exact IH]. constructor; [|exact IH].
  intros Hin. apply filter_In in Hin. tauto.
Qed.

Lemma unique_NoDup (l : list string) : NoDup (unique l).
Proof.
  induction l as [|a l IH]; simpl; constructor.
  - intros Hin. apply filter_In in Hin. destruct Hin as [_ H].
    rewrite String.eqb_refl in H. discriminate.
  - apply NoDup_filter. exact IH.
Qed.

Lemma insert_sorted_In (x y : string) (l : list string) :
  In y (insert_sorted x l) <-> y = x \/ In y l.
Proof.
  induction l as [|a l IH]; simpl.
  - intuition congruence.
  - destruct (String.leb x a); simpl; [intuition congruence|].
    rewrite IH. intuition congruence.
Qed.

Lemma sorted_In (l : list string) (y : string) :
  In y (sorted l) <-> In y l.
Proof.
  unfold sorted. induction l as [|a l IH]; simpl; [tauto|].
  rewrite insert_sorted_In, IH. intuition congruence.
Qed.

Lemma insert_sorted_NoDup (x : string) (l : list string) :
  ~ In x l -> NoDup l -> NoDup (insert_sorted x l).
Proof.
  induction l as [|a l IH]; simpl; intros Hx Hl.
  - constructor; [tauto|constructor].
  - destruct (String.leb x a).
    + constructor; [simpl; tauto|exact Hl].
    + inversion Hl; subst. constructor.
      * rewrite insert_sorted_In. intuition congruence.
      * apply IH; tauto.
Qed.

Lemma sorted_NoDup (l : list string) : NoDup l -> NoDup (sorted l).
Proof.
  unfold sorted. induction 1 as [|a l Hn Hl IH]; simpl; [constructor|].
  apply insert_sorted_NoDup; [|exact IH].
  intros Hin. apply Hn. apply sorted_In. exact Hin.
Qed.

Lemma insert_sorted_Sorted (x : string) (l : list string) :
  Sorted str_le l -> Sorted str_le (insert_sorted x l).
Proof.
  induction 1 as [|a l Hl IH Hhd]; simpl.
  - repeat constructor.
  - destruct (String.leb x a) eqn:Hxa.
    + constructor; [constructor; assumption|]. constructor. exact Hxa.
    + constructor; [exact IH|].
      assert (Hax : str_le a x).
      { destruct (String.leb_total x a) as [H|H]; [congruence|exact H]. }
      destruct l as [|b l]; simpl; [constructor; exact Hax|].
      destruct (String.leb x b); constructor; [exact Hax|].
      inversion Hhd; assumption.
Qed.

Lemma sorted_Sorted (l : list string) : Sorted str_le (sorted l).
Proof.
  unfold sorted. induction l as [|a l IH]; simpl; [constructor|].
  apply insert_sorted_Sorted. exact IH.
Qed.

Lemma series_In (df : DataFrame) (col : string) (v : value) :
  In v (series df col) <->
  exists r, In r (rows df) /\ cell_of (columns df) col r = v.
Proof.
  unfold series. rewrite in_map_iff. split; intros (r & H1 & H2).
  - exists r. split; assumption.
  - exists r. split; assumption.
Qed.

Lemma offered_texts_In (df : DataFrame) (col s : string) :
  In s (sorted (unique (map py_str (dropna (series df col))))) <->
  exists r, In r (rows df) /\
            cell_of (columns df) col r <> NaN /\
            py_str (cell_of (columns df) col r) = s.
Proof.
  rewrite sorted_In, unique_In, in_map_iff. unfold dropna. split.
  - intros (v & Hs & Hv). apply filter_In in Hv. destruct Hv as [Hin Hna].
    apply series_In in Hin. destruct Hin as (r & Hr & Hc).
    exists r. split; [exact Hr|]. rewrite Hc. split; [|exact Hs].
    intros ->. discriminate.
  - intros (r & Hr & Hna & Hs).
    exists (cell_of (columns df) col r). split; [exact Hs|].
    apply filter_In. split; [apply series_In; exists r; tauto|].
    destruct (cell_of (columns df) col r); simpl; congruence.
Qed.

(** X6. The options of a filter control are "All" followed by the texts of
    the cells of the column that are not missing, each once, in increasing
    order: a missing cell is never offered, and no other text is. *)
Theorem select_options_listing (df : DataFrame) (col : string) :
  exists opts,
    select_options df col = "All" :: opts /\
    Sorted str_le opts /\
    NoDup opts /\
    (forall s, In s opts <->
               exists r, In r (rows df) /\
                         cell_of (columns df) col r <> NaN /\
                         py_str (cell_of (columns df) col r) = s).
Proof.
  eexists. split; [reflexivity|]. split; [apply sorted_Sorted|].
  split; [apply sorted_NoDup, unique_NoDup|].
  intros s. apply offered_texts_In.
Qed.



(* ------------------------------------------------------------------ *)
(** ** The Workbook Loader: headers, untouched cells, loading again *)

Lemma lstrip_first (s : string) :
  Py.is_space_opt (Py.first_char (Py.lstrip s)) = false.
Proof.
  induction s as [|c t IH]; simpl; [reflexivity|].
  destruct (Py.is_space c) eqn:Hc; [exact IH|]. simpl. exact Hc.
Qed.

Lemma lstrip_id (s : string) :
  Py.is_space_opt (Py.first_char s) = false -> Py.lstrip s = s.
Proof.
  destruct s as [|c t]; simpl; [reflexivity|]. intros ->. reflexivity.
Qed.

Lemma rstrip_first (s : string) :
  Py.is_space_opt (Py.first_char s) = false ->
  Py.first_char (Py.rstrip s) = Py.first_char s.
Proof.
  destruct s as [|c t]; simpl; [reflexivity|]. intros Hc.
  destruct (Py.rstrip t); [rewrite Hc|]; reflexivity.
Qed.

Lemma rstrip_last (s : string) :
  Py.is_space_opt (Py.last_char (Py.rstrip s)) = false.
Proof.
  induction s as [|c t IH]; simpl; [reflexivity|].
  destruct (Py.rstrip t) as [|d u] eqn:Hr.
  - destruct (Py.is_space c) eqn:Hc; simpl; [reflexivity|exact Hc].
  - simpl in *. destruct (Py.last_char u); exact IH.
Qed.

Lemma rstrip_id (s : string) :
  Py.is_space_opt (Py.last_char s) = false -> Py.rstrip s = s.
Proof.
  induction s as [|c t IH]; simpl; [reflexivity|].
  destruct (Py.last_char t) as [d|] eqn:Hl.
  - intros Hd. rewrite (IH Hd). destruct t; [discriminate|reflexivity].
  - assert (Ht : t = "").
    { destruct t as [|e u]; [reflexivity|]. simpl in Hl.
      destruct (Py.last_char u); discriminate. }
    subst t. simpl. intros ->. reflexivity.
Qed.

(** [strip] leaves a text without white space at either end, and leaves
    such a text as it is. *)
Lemma strip_ends (s : string) :
  Py.is_space_opt (Py.first_char (Py.strip s)) = false /\
  Py.is_space_opt (Py.last_char (Py.strip s)) = false /\
  Py.strip (Py.strip s) = Py.strip s.
Proof.
  unfold Py.strip.
  assert (H1 : Py.is_space_opt (Py.first_char (Py.rstrip (Py.lstrip s)))
               = false).
  { rewrite rstrip_first by apply lstrip_first. apply lstrip_first. }
  split; [exact H1|]. split; [apply rstrip_last|].
  rewrite (lstrip_id _ H1). apply rstrip_id. apply rstrip_last.
Qed.

Lemma normalize_sheet_columns (raw : RawSheet) :
  columns (normalize_sheet raw) = columns (strip_columns raw).
Proof.
  unfold normalize_sheet.
  destruct (find_col "division" (columns (strip_columns raw))) as [c|] eqn:Hc;
    simpl; [|reflexivity].
  destruct (Py.truthy c); [|reflexivity].
  unfold set_series.
  destruct (col_pos_In c (columns (strip_columns raw))) as [j Hj].
  { apply find_some in Hc. tauto. }
  rewrite Hj. reflexivity.
Qed.


Lemma set_cells_length (j : nat) (rs : list row) (s : list value) :
  List.length (set_cells j rs s) = List.length rs.
Proof.
  revert s. induction rs as [|r rs IH]; intros [|v s]; simpl;
    try reflexivity. rewrite IH. reflexivity.
Qed.

Lemma cell_replace_other (j j' : nat) (v : value) (r : row) :
  j <> j' -> cell j' (replace_nth j v r) = cell j' r.
Proof.
  unfold cell. revert j j'. induction r as [|x t IH]; intros j j' Hne.
  - destruct j; reflexivity.
  - destruct j as [|j], j' as [|j']; simpl; try reflexivity;
      [congruence|]. apply IH. congruence.
Qed.

Lemma set_cells_other (j j' : nat) (rs : list row) (s : list value) :
  j <> j' -> map (cell j') (set_cells j rs s) = map (cell j') rs.
Proof.
  intros Hne. revert s. induction rs as [|r rs IH]; intros [|v s]; simpl;
    try reflexivity.
  rewrite cell_replace_other by exact Hne. rewrite IH. reflexivity.
Qed.

Lemma col_pos_distinct (c c' : string) (cols : list string) (j j' : nat) :
  col_pos c cols = Some j -> col_pos c' cols = Some j' -> c <> c' -> j <> j'.
Proof.
  revert j j'. induction cols as [|h t IH]; intros j j'; simpl;
    [discriminate|].
  destruct (h =? c)%string eqn:Hc, (h =? c')%string eqn:Hc'.
  - apply String.eqb_eq in Hc, Hc'. congruence.
  - destruct (col_pos c' t); simpl; intros H1 H2; [|discriminate].
    injection H1 as <-. injection H2 as <-. discriminate.
  - destruct (col_pos c t); simpl; intros H1 H2; [|discriminate].
    injection H1 as <-. injection H2 as <-. discriminate.
  - destruct (col_pos c t) as [k|], (col_pos c' t) as [k'|]; simpl;
      intros H1 H2; try discriminate.
    injection H1 as <-. injection H2 as <-. intros Hne Heq.
    apply (IH k k' eq_refl eq_refl Hne). congruence.
Qed.

Lemma map_const_length {A B C : Type} (b : C) (l : list A) (l' : list B) :
  List.length l = List.length l' ->
  map (fun _ => b) l = map (fun _ => b) l'.
Proof.
  revert l'. induction l as [|x l IH]; intros [|y l'] H; simpl in *;
    try discriminate; [reflexivity|]. f_equal. apply IH. lia.
Qed.

(** X9. Loading keeps the number of rows of a sheet and touches no column
    but the division-like one: every other column holds the cells read from
    the file, and a sheet without a division-like column keeps all its
    rows as read. *)
Theorem loader_touches_division_only (raw : RawSheet) :
  len (normalize_sheet raw) = List.length (raw_rows raw) /\
  (find_col "division" (columns (strip_columns raw)) = None ->
   rows (normalize_sheet raw) = raw_rows raw) /\
  (forall c c',
      find_col "division" (columns (strip_columns raw)) = Some c ->
      c' <> c ->
      series (normalize_sheet raw) c' = series (strip_columns raw) c').
Proof.
  unfold len, normalize_sheet.
  destruct (find_col "division" (columns (strip_columns raw))) as [c|] eqn:Hc.
  - assert (Ht : Py.truthy c = true)
      by (apply (find_col_nonempty "division"
                   (columns (strip_columns raw)));
          [discriminate|exact Hc]).
    destruct (col_pos_In c (columns (strip_columns raw))) as [j Hj].
    { apply find_some in Hc. tauto. }
    simpl bound. rewrite Ht. unfold set_series. rewrite Hj.
    split; [apply set_cells_length|]. split; [discriminate|].
    intros c0 c' Hc0 Hne. injection Hc0 as <-.
    unfold series, cell_of. simpl columns. simpl rows.
    destruct (col_pos c' (map (fun h => Py.strip (py_str h))
                              (raw_header raw))) as [j'|] eqn:Hj'.
    + apply set_cells_other.
      apply (col_pos_distinct c c' _ j j' Hj Hj'). congruence.
    + apply map_const_length. apply set_cells_length.
  - simpl. split; [reflexivity|]. split; [reflexivity|]. discriminate.
Qed.

Lemma ffill_from_idem (l : list value) (last : value) :
  ffill_from last (ffill_from last l) = ffill_from last l.
Proof.
  revert last. induction l as [|v t IH]; intros last; simpl; [reflexivity|].
  destruct (isna v) eqn:Hv; simpl.
  - destruct (isna last); rewrite IH; reflexivity.
  - rewrite Hv, IH. reflexivity.
Qed.

Lemma replace_nth_same (j : nat) (r : row) :
  replace_nth j (cell j r) r = r.
Proof.
  unfold cell. revert j. induction r as [|x t IH]; intros j.
  - destruct j; reflexivity.
  - destruct j as [|j]; simpl; [reflexivity|]. rewrite IH. reflexivity.
Qed.

Lemma set_cells_same (j : nat) (rs : list row) :
  set_cells j rs (map (cell j) rs) = rs.
Proof.
  induction rs as [|r rs IH]; simpl; [reflexivity|].
  rewrite replace_nth_same, IH. reflexivity.
Qed.

Lemma set_series_same (df : DataFrame) (c : string) :
  In c (columns df) -> set_series df c (series df c) = df.
Proof.
  intros Hin. destruct (col_pos_In c (columns df) Hin) as [j Hj].
  unfold set_series, series, cell_of. rewrite Hj.
  rewrite set_cells_same. apply with_rows_same.
Qed.

Lemma normalize_sheet_division_series (raw : RawSheet) (c : string) :
  find_col "division" (columns (strip_columns raw)) = Some c ->
  rectangular (strip_columns raw) = true ->
  series (normalize_sheet raw) c = ffill (series (strip_columns raw) c).
Proof.
  intros Hc Hrect. unfold normalize_sheet. rewrite Hc.
  assert (Ht : Py.truthy c = true)
    by (apply (find_col_nonempty "division" (columns (strip_columns raw)));
        [discriminate|exact Hc]).
  simpl bound. rewrite Ht. apply series_set_series.
  - apply find_some in Hc. tauto.
  - exact Hrect.
  - unfold ffill. rewrite ffill_from_length. unfold series. apply length_map.
Qed.

Lemma map_strip_loaded (raw : RawSheet) :
  map (fun h => Py.strip (py_str (Str h))) (columns (normalize_sheet raw))
  = columns (normalize_sheet raw).
Proof.
  rewrite normalize_sheet_columns. unfold strip_columns. cbn [columns].
  rewrite map_map. apply map_ext. intros h. cbn [py_str].
  apply strip_ends.
Qed.

(** The loaded sheet written back as a raw sheet. *)
Lemma strip_columns_of_loaded (raw : RawSheet) :
  strip_columns (mkRawSheet (map Str (columns (normalize_sheet raw)))
                            (rows (normalize_sheet raw)))
  = normalize_sheet raw.
Proof.
  unfold strip_columns. cbn [raw_header raw_rows].
  rewrite map_map, map_strip_loaded.
  destruct (normalize_sheet raw); reflexivity.
Qed.

(** X10. Loading is idempotent: a loaded sheet, read again as it stands,
    loads to itself.  Its headers are already stripped and its division
    column is already filled. *)
Theorem loading_again_changes_nothing (raw : RawSheet) :
  rectangular (strip_columns raw) = true ->
  normalize_sheet (mkRawSheet (map Str (columns (normalize_sheet raw)))
                              (rows (normalize_sheet raw)))
  = normalize_sheet raw.
Proof.
  intros Hrect.
  unfold normalize_sheet at 1. rewrite strip_columns_of_loaded.
  rewrite normalize_sheet_columns.
  destruct (find_col "division" (columns (strip_columns raw))) as [c|] eqn:Hc;
    [|reflexivity].
  assert (Ht : Py.truthy c = true)
    by (apply (find_col_nonempty "division" (columns (strip_columns raw)));
        [discriminate|exact Hc]).
  simpl bound. rewrite Ht.
  rewrite (normalize_sheet_division_series raw c Hc Hrect).
  unfold ffill at 1. rewrite ffill_from_idem. fold (ffill (series (strip_columns raw) c)).
  rewrite <- (normalize_sheet_division_series raw c Hc Hrect).
  apply set_series_same. rewrite normalize_sheet_columns.
  apply find_some in Hc. tauto.
Qed.

Lemma loading_again_changes_nothing_witness :
  normalize_sheet
    (mkRawSheet (map Str (columns (normalize_sheet raw_grouped)))
                (rows (normalize_sheet raw_grouped)))
  = normalize_sheet raw_grouped.
Proof.
  apply (loading_again_changes_nothing raw_grouped). reflexivity.
Defined.

Lemma dict_get_map {A B : Type} (f : A -> B) (k : string)
                   (d : list (string * A)) :
  dict_get k (map (fun '(name, a) => (name, f a)) d)
  = option_map f (dict_get k d).
Proof.
  induction d as [|[k' a] d IH]; simpl; [reflexivity|].
  destruct (k' =? k)%string; [reflexivity|exact IH].
Qed.

Lemma dict_get_In {A : Type} (k : string) (a : A) (d : list (string * A)) :
  NoDup (map fst d) -> In (k, a) d -> dict_get k d = Some a.
Proof.
  induction d as [|[k' a'] d IH]; simpl; intros Hnd Hin; [contradiction|].
  inversion Hnd as [|? ? Hk Hd]; subst.
  destruct Hin as [Heq|Hin].
  - injection Heq as -> ->. rewrite String.eqb_refl. reflexivity.
  - destruct (String.eqb_spec k' k) as [->|Hne]; [|apply IH; assumption].
    exfalso. apply Hk. apply in_map_iff. exists (k, a). split;
      [reflexivity|exact Hin].
Qed.

(** X11. [load_workbook] lists the sheets in the order of the file and maps
    each sheet name to the normalized sheet of that name: looking up any
    listed sheet succeeds. *)
Theorem load_workbook_sheets (xls : list (string * RawSheet)) :
  NoDup (map fst xls) ->
  snd (load_workbook xls) = map fst xls /\
  map fst (fst (load_workbook xls)) = snd (load_workbook xls) /\
  (forall name raw, In (name, raw) xls ->
     dict_get name (fst (load_workbook xls)) = Some (normalize_sheet raw)) /\
  (forall name, In name (snd (load_workbook xls)) ->
     exists df, dict_get name (fst (load_workbook xls)) = Some df).
Proof.
  intros Hnd. unfold load_workbook. simpl.
  split; [reflexivity|]. split.
  { rewrite map_map. apply map_ext. intros [name raw]. reflexivity. }
  assert (Hget : forall name raw, In (name, raw) xls ->
            dict_get name
              (map (fun '(name0, raw0) => (name0, normalize_sheet raw0)) xls)
            = Some (normalize_sheet raw)).
  { intros name raw Hin. rewrite dict_get_map.
    rewrite (dict_get_In name raw xls Hnd Hin). reflexivity. }
  split; [exact Hget|].
  intros name Hin. apply in_map_iff in Hin. destruct Hin as ([n raw] & <- & Hin).
  exists (normalize_sheet raw). apply Hget. exact Hin.
Qed.

Lemma load_workbook_sheets_witness :
  snd (load_workbook [("Shop", raw_grouped); ("Yard", raw_grouped)])
  = ["Shop"; "Yard"] /\
  dict_get "Yard"
    (fst (load_workbook [("Shop", raw_grouped); ("Yard", raw_grouped)]))
  = Some (normalize_sheet raw_grouped).
Proof.
  destruct (load_workbook_sheets
              [("Shop", raw_grouped); ("Yard", raw_grouped)])
    as (Hs & _ & Hget & _).
  - repeat constructor; simpl; intuition discriminate.
  - split; [exact Hs|]. apply Hget. right. left. reflexivity.
Defined.

(* ------------------------------------------------------------------ *)
(** ** Substrings, suffixes and first matches *)

Lemma prefix_app (n h : string) :
  prefix n h = true <-> exists b, h = (n ++ b)%string.
Proof.
  revert n. induction h as [|d h IH]; intros [|c n]; simpl.
  - split; [intros _; exists ""; reflexivity|reflexivity].
  - split; [discriminate|intros [b Hb]; discriminate].
  - split; [intros _; exists (String d h); reflexivity|reflexivity].
  - destruct (ascii_dec c d) as [->|Hne].
    + rewrite IH. split; intros [b Hb]; exists b; congruence.
    + split; [discriminate|]. intros [b Hb]. congruence.
Qed.

(** [needle in hay] holds exactly when [hay] is some text, then [needle],
    then some text. *)
Lemma str_in_app (n h : string) :
  Py.str_in n h = true <-> exists a b, h = (a ++ n ++ b)%string.
Proof.
  induction h as [|d h IH]; cbn [Py.str_in].
  - rewrite orb_false_r, prefix_app. split.
    + intros [b Hb]. exists "", b. exact Hb.
    + intros (a & b & Hab). destruct a as [|x a]; [|discriminate].
      exists b. exact Hab.
  - rewrite orb_true_iff, prefix_app, IH. split.
    + intros [[b Hb]|(a & b & Hab)].
      * exists "", b. exact Hb.
      * exists (String d a), b. simpl. congruence.
    + intros (a & b & Hab). destruct a as [|x a]; simpl in Hab.
      * left. exists b. exact Hab.
      * right. exists a, b. congruence.
Qed.

(** [s.endswith(suffix)] holds exactly when [s] is some text followed by
    [suffix]. *)
Lemma endswith_app (suffix s : string) :
  Py.endswith suffix s = true <-> exists a, s = (a ++ suffix)%string.
Proof.
  induction s as [|d s IH]; cbn [Py.endswith].
  - rewrite orb_false_r, String.eqb_eq. split.
    + intros <-. exists "". reflexivity.
    + intros [a Ha]. destruct a as [|x a]; [exact Ha|discriminate].
  - rewrite orb_true_iff, String.eqb_eq, IH. split.
    + intros [<-|[a Ha]]; [exists ""; reflexivity|].
      exists (String d a). simpl. congruence.
    + intros [a Ha]. destruct a as [|x a]; simpl in Ha.
      * left. exact Ha.
      * right. exists a. congruence.
Qed.

(** [find] returns the first element that passes the test. *)
Lemma find_first {A : Type} (p : A -> bool) (l : list A) (x : A) :
  List.find p l = Some x <->
  exists before after,
    l = before ++ x :: after /\ p x = true /\
    forall y, In y before -> p y = false.
Proof.
  induction l as [|a l IH]; simpl.
  - split; [discriminate|]. intros (b & t & H & _). destruct b; discriminate.
  - destruct (p a) eqn:Hp.
    + split.
      * intros H. injection H as <-. exists [], l. simpl. tauto.
      * intros (b & t & H & Hx & Hb). destruct b as [|y b]; simpl in H.
        -- congruence.
        -- injection H as <- _. specialize (Hb a (or_introl eq_refl)).
           congruence.
    + rewrite IH. split.
      * intros (b & t & H & Hx & Hb). exists (a :: b), t. subst l.
        split; [reflexivity|]. split; [exact Hx|].
        intros y [<-|Hy]; [exact Hp|apply Hb; exact Hy].
      * intros (b & t & H & Hx & Hb). destruct b as [|y b]; simpl in H.
        -- injection H as -> _. congruence.
        -- injection H as _ ->. exists b, t. split; [reflexivity|].
           split; [exact Hx|]. intros z Hz. apply Hb. right. exact Hz.
Qed.

Lemma find_none_iff {A : Type} (p : A -> bool) (l : list A) :
  List.find p l = None <-> forall y, In y l -> p y = false.
Proof.
  split; [apply find_none|].
  induction l as [|a l IH]; simpl; intros H; [reflexivity|].
  rewrite (H a (or_introl eq_refl)). apply IH.
  intros y Hy. apply H. right. exact Hy.
Qed.

Lemma has_excel_ext_app (f : string) :
  has_excel_ext f = true <->
  exists stem, Py.lower f = (stem ++ ".xlsx")%string \/
               Py.lower f = (stem ++ ".xls")%string.
Proof.
  unfold has_excel_ext. rewrite orb_true_iff, !endswith_app. split.
  - intros [[a Ha]|[a Ha]]; exists a; tauto.
  - intros [a [Ha|Ha]]; [left|right]; exists a; exact Ha.
Qed.

(* ------------------------------------------------------------------ *)
(** ** File discovery *)

(** X12. No workbook is found exactly when the default file does not exist
    and no name in the working directory ends, in any letter case, with
    [.xlsx] or [.xls]. *)
Theorem no_workbook_iff (fs : FileSystem) :
  find_excel_file fs = None <->
  path_exists fs DEFAULT_FILE = false /\
  forall f, In f (listdir fs) ->
    ~ exists stem, Py.lower f = (stem ++ ".xlsx")%string \/
                   Py.lower f = (stem ++ ".xls")%string.
Proof.
  unfold find_excel_file.
  destruct (path_exists fs DEFAULT_FILE).
  - split; [discriminate|]. intros [H _]. discriminate.
  - rewrite find_none_iff. split.
    + intros H. split; [reflexivity|]. intros f Hf Hex.
      apply has_excel_ext_app in Hex. rewrite (H f Hf) in Hex. discriminate.
    + intros [_ H] f Hf. destruct (has_excel_ext f) eqn:He; [|reflexivity].
      exfalso. apply (H f Hf). apply has_excel_ext_app. exact He.
Qed.

(** X13. The workbook found is the default file whenever that exists,
    whatever else the directory holds; otherwise it is the first name of the
    directory listing with a spreadsheet extension. *)
Theorem workbook_found_iff (fs : FileSystem) (f : string) :
  find_excel_file fs = Some f <->
  (path_exists fs DEFAULT_FILE = true /\ f = DEFAULT_FILE) \/
  (path_exists fs DEFAULT_FILE = false /\
   exists before after,
     listdir fs = before ++ f :: after /\
     has_excel_ext f = true /\
     forall g, In g before -> has_excel_ext g = false).
Proof.
  unfold find_excel_file.
  destruct (path_exists fs DEFAULT_FILE).
  - split.
    + intros H. injection H as <-. left. split; reflexivity.
    + intros [[_ ->]|[H _]]; [reflexivity|discriminate].
  - rewrite find_first. split.
    + intros H. right. split; [reflexivity|exact H].
    + intros [[H _]|[_ H]]; [discriminate|exact H].
Qed.

(* ------------------------------------------------------------------ *)
(** ** Column Classifier *)

(** X14. For a keyword, the classifier returns the first header whose
    lower-case form contains the keyword, and returns nothing exactly when
    no header does. *)
Theorem classifier_first_match (kw : string) (cols : list string) :
  (forall c,
      find_col kw cols = Some c <->
      exists before after,
        cols = before ++ c :: after /\
        (exists a b, Py.lower c = (a ++ kw ++ b)%string) /\
        forall h, In h before ->
          ~ exists a b, Py.lower h = (a ++ kw ++ b)%string) /\
  (find_col kw cols = None <->
   forall h, In h cols -> ~ exists a b, Py.lower h = (a ++ kw ++ b)%string).
Proof.
  assert (Hno : forall h, Py.str_in kw (Py.lower h) = false <->
                  ~ exists a b, Py.lower h = (a ++ kw ++ b)%string).
  { intros h. rewrite <- str_in_app.
    destruct (Py.str_in kw (Py.lower h)); split; congruence. }
  unfold find_col. split.
  - intros c. rewrite find_first. split.
    + intros (b & t & Hl & Hc & Hb). exists b, t. split; [exact Hl|].
      split; [apply str_in_app; exact Hc|].
      intros h Hh. apply Hno. apply Hb. exact Hh.
    + intros (b & t & Hl & Hc & Hb). exists b, t. split; [exact Hl|].
      split; [apply str_in_app; exact Hc|].
      intros h Hh. apply Hno. apply Hb. exact Hh.
  - rewrite find_none_iff. split; intros H h Hh; apply Hno; apply H; exact Hh.
Qed.

Lemma workbook_found_iff_witness :
  find_excel_file
    (mkFileSystem (fun _ => false) ["notes.txt"; "Report.XLSX"; "old.xls"])
  = Some "Report.XLSX".
Proof.
  apply (proj2 (workbook_found_iff
                  (mkFileSystem (fun _ => false)
                                ["notes.txt"; "Report.XLSX"; "old.xls"])
                  "Report.XLSX")).
  right. split; [reflexivity|].
  exists ["notes.txt"], ["old.xls"]. split; [reflexivity|].
  split; [reflexivity|].
  intros g [<-|[]]. reflexivity.
Defined.

(* ------------------------------------------------------------------ *)
(** ** Shape of the wrapped lines *)

Lemma substring_length (a n : nat) (s : string) :
  String.length (substring a n s) = Nat.min n (String.length s - a).
Proof.
  revert a n. induction s as [|x s IH]; intros a n.
  - rewrite substring_of_empty. simpl. lia.
  - destruct a as [|a].
    + destruct n as [|n]; simpl; [reflexivity|].
      rewrite IH, Nat.sub_0_r. reflexivity.
    + simpl. apply IH.
Qed.

Lemma range_from_nth (fuel start stop step i j : nat) :
  nth_error (Py.range_from fuel start stop step) i = Some j ->
  j = (start + i * step)%nat /\ (j < stop)%nat.
Proof.
  revert start i. induction fuel as [|fuel IH]; intros start i; simpl.
  - destruct i; discriminate.
  - destruct (start <? stop)%nat eqn:Hlt; [|destruct i; discriminate].
    apply Nat.ltb_lt in Hlt. destruct i as [|i]; simpl.
    + intros H. injection H as <-. lia.
    + intros H. apply IH in H. lia.
Qed.

Lemma range_from_length (fuel start stop step : nat) :
  (0 < step)%nat -> (stop - start <= fuel)%nat ->
  (stop - start
   <= step * List.length (Py.range_from fuel start stop step)
   < stop - start + step)%nat.
Proof.
  intros Hstep. revert start.
  induction fuel as [|fuel IH]; intros start Hfuel; simpl.
  - lia.
  - destruct (start <? stop)%nat eqn:Hlt.
    + apply Nat.ltb_lt in Hlt. simpl.
      specialize (IH (start + step)%nat).
      destruct (List.length
                  (Py.range_from fuel (start + step) stop step)) as [|n];
        rewrite ?Nat.mul_succ_r in *; lia.
    + apply Nat.ltb_ge in Hlt. simpl. lia.
Qed.

(** X15. The text of a row is cut into consecutive slices of 200 characters:
    there are as many lines as that takes, none is empty, and every line but
    the last holds exactly 200 characters; an empty text gives no line. *)
Theorem text_lines_shape (text : string) :
  (String.length text <= 200 * List.length (text_lines text)
   < String.length text + 200)%nat /\
  (forall i l, nth_error (text_lines text) i = Some l ->
     l = substring (200 * i) 200 text /\
     (1 <= String.length l <= 200)%nat /\
     (S i < List.length (text_lines text) -> String.length l = 200%nat)).
Proof.
  unfold text_lines, Py.range_step. rewrite length_map. split.
  - pose proof (range_from_length (String.length text) 0
                  (String.length text) 200) as H.
    lia.
  - intros i l Hl. rewrite nth_error_map in Hl.
    destruct (nth_error (Py.range_from (String.length text) 0
                           (String.length text) 200) i) as [j|] eqn:Hj;
      [|discriminate].
    simpl in Hl. injection Hl as <-.
    pose proof (range_from_nth _ _ _ _ _ _ Hj) as [Hji Hjs].
    split; [f_equal; lia|]. rewrite substring_length.
    split; [lia|]. intros Hnext.
    destruct (nth_error (Py.range_from (String.length text) 0
                           (String.length text) 200) (S i)) as [j'|] eqn:Hj'.
    + pose proof (range_from_nth _ _ _ _ _ _ Hj') as [Hji' Hjs']. lia.
    + apply nth_error_None in Hj'. lia.
Qed.

(* ------------------------------------------------------------------ *)
(** ** Pagination of the report *)

Lemma Ok_inj {A : Type} (a b : A) : Ok a = Ok b -> a = b.
Proof. intros H. injection H as H. exact H. Qed.

Section LayoutFacts.
Context {R : Renderer}.

Lemma draw_lines_layout (lines : list string) (y : Z) (ops : list pdf_op) :
  snd (fold_left draw_line lines (y, ops)) = ops ++ layout y lines.
Proof.
  revert y ops. induction lines as [|tl lines IH]; intros y ops; simpl.
  - rewrite app_nil_r. reflexivity.
  - destruct (y <? 60)%Z; rewrite IH, <- !app_assoc; reflexivity.
Qed.

Lemma draw_rows_as_lines (rs : list record) (st : canvas) :
  fold_left draw_row rs st
  = fold_left draw_line (flat_map (fun r => text_lines (row_text r)) rs) st.
Proof.
  revert st. induction rs as [|r rs IH]; intros st; simpl; [reflexivity|].
  rewrite fold_left_app. apply IH.
Qed.

(** The report is its heading, then the layout of all the lines of the
    dumped rows one after the other. *)
Lemma make_pdf_report_layout (title : string) (fig : chart)
                             (df_rows : list record) :
  make_pdf_report title fig df_rows
  = Ok ([SetFont "Helvetica-Bold" 16;
         DrawString 40 (page_height - 40)%Z title]
        ++ match to_image fig with
           | Ok img =>
               [DrawImage img 40 (page_height - 70 - drawn_height img)%Z]
           | Raise _ => []
           end
        ++ [SetFont "Helvetica" 10]
        ++ layout (match to_image fig with
                   | Ok img => (page_height - 70 - drawn_height img - 20)%Z
                   | Raise _ => (page_height - 70)%Z
                   end)
                  (flat_map (fun r => text_lines (row_text r))
                            (firstn 50 df_rows))).
Proof.
  unfold make_pdf_report. rewrite dumped_rows_firstn.
  destruct (to_image fig) as [img|e];
    cbn [try_except bind draw_chart fst snd];
    rewrite draw_rows_as_lines, draw_lines_layout; reflexivity.
Qed.

Lemma text_positions_layout (lines : list string) (y : Z) :
  (y <= page_height - 40)%Z ->
  Forall (fun p => fst p = 40%Z /\ (60 <= snd p <= page_height - 40)%Z)
         (text_positions (layout y lines)).
Proof.
  unfold page_height.
  revert y. induction lines as [|tl lines IH]; intros y Hy; simpl;
    [constructor|].
  destruct (y <? 60)%Z eqn:Hlt; simpl; constructor; simpl.
  - lia.
  - apply IH. lia.
  - apply Z.ltb_ge in Hlt. lia.
  - apply IH. lia.
Qed.

Lemma breaks_reset_layout (lines : list string) (y : Z) :
  breaks_reset (layout y lines).
Proof.
  revert y. induction lines as [|tl lines IH]; intros y; simpl; [exact I|].
  destruct (y <? 60)%Z; simpl.
  - split; [eexists; eexists; reflexivity|]. apply IH.
  - apply IH.
Qed.

Lemma texts_per_page_layout (lines : list string) (y : Z) :
  exists n ns,
    texts_per_page (layout y lines) = n :: ns /\
    (12 * Z.of_nat n <= Z.max 0 (y - 48))%Z /\
    Forall (fun k => (k <= 58)%nat) ns.
Proof.
  revert y. induction lines as [|tl lines IH]; intros y; cbn [layout].
  - exists O, []. split; [reflexivity|]. split; [|constructor].
    change (12 * Z.of_nat 0)%Z with 0%Z. apply Z.le_max_l.
  - destruct (y <? 60)%Z eqn:Hlt; cbn [texts_per_page].
    + destruct (IH (page_height - 40 - 12)%Z) as (n & ns & -> & Hn & Hns).
      exists O, (S n :: ns). split; [reflexivity|]. split.
      * change (12 * Z.of_nat 0)%Z with 0%Z. apply Z.le_max_l.
      * constructor; [|exact Hns]. unfold page_height in Hn.
        rewrite Z.max_r in Hn by lia. lia.
    + apply Z.ltb_ge in Hlt.
      destruct (IH (y - 12)%Z) as (n & ns & -> & Hn & Hns).
      exists (S n), ns. split; [reflexivity|]. split; [|exact Hns].
      rewrite Z.max_r by lia.
      destruct (Z.max_spec 0 (y - 12 - 48)) as [[_ Hm]|[_ Hm]];
        rewrite Hm in Hn; lia.
Qed.

End LayoutFacts.

(** X16. Every text of the report is drawn at the left margin, between the
    bottom margin and the top line of the page, whenever the rendered image
    has a height that is not negative: no line of the dump is drawn below
    the bottom margin. *)
Theorem report_texts_stay_on_page (R : Renderer) (title : string)
                                  (fig : chart) (df_rows : list record)
                                  (ops : list pdf_op) :
  (forall img, to_image fig = Ok img -> (0 <= drawn_height img)%Z) ->
  make_pdf_report title fig df_rows = Ok ops ->
  Forall (fun p => fst p = 40%Z /\ (60 <= snd p <= page_height - 40)%Z)
         (text_positions ops).
Proof.
  intros Hh Hops. rewrite make_pdf_report_layout in Hops.
  apply Ok_inj in Hops. subst ops.
  destruct (to_image fig) as [img|e]; cbn [app text_positions];
    (constructor; [cbn [fst snd]; unfold page_height; lia|]);
    apply text_positions_layout.
  - specialize (Hh img eq_refl). lia.
  - lia.
Qed.

Lemma report_texts_stay_on_page_witness :
  Forall (fun p => fst p = 40%Z /\ (60 <= snd p <= page_height - 40)%Z)
         (text_positions
            (match @make_pdf_report SampleRenderer "JHA Report"
                     (pdf_chart sheet_3A_2B) (to_dict_records sheet_3A_2B)
             with
             | Ok ops => ops
             | Raise _ => []
             end)).
Proof.
  destruct (@make_pdf_report SampleRenderer "JHA Report"
              (pdf_chart sheet_3A_2B) (to_dict_records sheet_3A_2B))
    as [ops|e] eqn:Hops; [|constructor].
  apply (report_texts_stay_on_page SampleRenderer "JHA Report"
           (pdf_chart sheet_3A_2B) (to_dict_records sheet_3A_2B) ops).
  - intros img _. cbn. lia.
  - exact Hops.
Defined.

(** X17. Every page break of the report is followed at once by the font of
    the dump and by a line drawn at the top of the new page: the report
    never starts a page without setting the font again, and never ends on
    an empty page. *)
Theorem report_breaks_reset_font (R : Renderer) (title : string)
                                 (fig : chart) (df_rows : list record) :
  exists ops,
    make_pdf_report title fig df_rows = Ok ops /\ breaks_reset ops.
Proof.
  eexists. split; [apply make_pdf_report_layout|].
  destruct (to_image fig); cbn [app breaks_reset];
    apply breaks_reset_layout.
Qed.

(** X18. No page of the report holds more than 58 texts, whenever the
    rendered image has a height that is not negative. *)
Theorem report_page_load (R : Renderer) (title : string) (fig : chart)
                         (df_rows : list record) (ops : list pdf_op) :
  (forall img, to_image fig = Ok img -> (0 <= drawn_height img)%Z) ->
  make_pdf_report title fig df_rows = Ok ops ->
  Forall (fun k => (k <= 58)%nat) (texts_per_page ops).
Proof.
  intros Hh Hops. rewrite make_pdf_report_layout in Hops.
  apply Ok_inj in Hops. subst ops.
  destruct (to_image fig) as [img|e]; cbn [app texts_per_page];
    match goal with |- context [layout ?y ?ls] =>
      destruct (texts_per_page_layout ls y) as (n & ns & -> & Hn & Hns) end;
    (constructor; [|exact Hns]); unfold page_height in Hn.
  - specialize (Hh img eq_refl).
    destruct (Z.max_spec 0 (792 - 70 - drawn_height img - 20 - 48))
      as [[_ Hm]|[_ Hm]]; rewrite Hm in Hn; lia.
  - rewrite Z.max_r in Hn by lia. lia.
Qed.

Lemma report_page_load_witness :
  Forall (fun k => (k <= 58)%nat)
         (texts_per_page
            (match @make_pdf_report SampleRenderer "JHA Report"
                     (pdf_chart sheet_3A_2B) (to_dict_records sheet_3A_2B)
             with
             | Ok ops => ops
             | Raise _ => []
             end)).
Proof.
  destruct (@make_pdf_report SampleRenderer "JHA Report"
              (pdf_chart sheet_3A_2B) (to_dict_records sheet_3A_2B))
    as [ops|e] eqn:Hops; [|repeat constructor].
  apply (report_page_load SampleRenderer "JHA Report"
           (pdf_chart sheet_3A_2B) (to_dict_records sheet_3A_2B) ops).
  - intros img _. cbn. lia.
  - exact Hops.
Defined.

(* ------------------------------------------------------------------ *)
(** ** The counts behind the charts *)

Lemma value_eqb_eq (a b : value) : value_eqb a b = true <-> a = b.
Proof.
  destruct a, b; simpl; try (split; [discriminate|congruence]).
  - split; reflexivity.
  - rewrite String.eqb_eq. split; congruence.
  - rewrite Z.eqb_eq. split; congruence.
Qed.

Lemma value_eqb_refl (a : value) : value_eqb a a = true.
Proof. apply value_eqb_eq. reflexivity. Qed.

Lemma value_eqb_sym (a b : value) : value_eqb a b = value_eqb b a.
Proof.
  destruct (value_eqb a b) eqn:H1, (value_eqb b a) eqn:H2; try reflexivity.
  - apply value_eqb_eq in H1. subst. rewrite value_eqb_refl in H2.
    discriminate.
  - apply value_eqb_eq in H2. subst. rewrite value_eqb_refl in H1.
    discriminate.
Qed.

Lemma count_into_sum (v : value) (acc : list (value * nat)) :
  list_sum (map snd (count_into v acc)) = S (list_sum (map snd acc)).
Proof.
  induction acc as [|[k n] t IH]; simpl; [reflexivity|].
  destruct (value_eqb k v); simpl; [reflexivity|]. rewrite IH. lia.
Qed.

Lemma count_into_keys (v k : value) (acc : list (value * nat)) :
  In k (map fst (count_into v acc)) <-> k = v \/ In k (map fst acc).
Proof.
  induction acc as [|[k' n] t IH]; simpl.
  - intuition congruence.
  - destruct (value_eqb k' v) eqn:He; simpl.
    + apply value_eqb_eq in He. subst. intuition congruence.
    + rewrite IH. intuition congruence.
Qed.

Lemma count_into_NoDup (v : value) (acc : list (value * nat)) :
  NoDup (map fst acc) -> NoDup (map fst (count_into v acc)).
Proof.
  induction acc as [|[k n] t IH]; simpl; intros Hnd.
  - constructor; [tauto|constructor].
  - inversion Hnd as [|? ? Hk Ht]; subst.
    destruct (value_eqb k v) eqn:He; simpl.
    + constructor; assumption.
    + constructor; [|apply IH; exact Ht].
      rewrite count_into_keys. intros [->|Hin]; [|contradiction].
      rewrite value_eqb_refl in He. discriminate.
Qed.

Lemma count_into_get (v k : value) (acc : list (value * nat)) :
  tally_get k (count_into v acc)
  = (tally_get k acc + if value_eqb k v then 1 else 0)%nat.
Proof.
  induction acc as [|[k' n] t IH]; simpl.
  - rewrite (value_eqb_sym v k). destruct (value_eqb k v); reflexivity.
  - destruct (value_eqb k' v) eqn:He; simpl.
    + apply value_eqb_eq in He. subst k'.
      rewrite (value_eqb_sym v k). destruct (value_eqb k v); lia.
    + destruct (value_eqb k' k) eqn:Hk; [|exact IH].
      apply value_eqb_eq in Hk. subst k'. rewrite He. lia.
Qed.

Lemma count_into_positive (v : value) (acc : list (value * nat)) :
  Forall (fun e => (1 <= snd e)%nat) acc ->
  Forall (fun e => (1 <= snd e)%nat) (count_into v acc).
Proof.
  induction 1 as [|[k n] t Hk Ht IH]; simpl.
  - constructor; [simpl; lia|constructor].
  - destruct (value_eqb k v); constructor; simpl in *; try lia; assumption.
Qed.

(** The table after counting the cells of [l] into [acc]. *)
Lemma counted_facts (l : list value) (acc : list (value * nat)) :
  let t := fold_left (fun a v => count_into v a) l acc in
  list_sum (map snd t) = (list_sum (map snd acc) + List.length l)%nat /\
  (NoDup (map fst acc) -> NoDup (map fst t)) /\
  (forall k, tally_get k t = (tally_get k acc + occurrences k l)%nat) /\
  (Forall (fun e => (1 <= snd e)%nat) acc ->
   Forall (fun e => (1 <= snd e)%nat) t).
Proof.
  revert acc. induction l as [|v l IH]; intros acc; simpl.
  - split; [lia|]. split; [tauto|]. split; [|tauto].
    intros k. unfold occurrences. simpl. lia.
  - destruct (IH (count_into v acc)) as (Hs & Hn & Hg & Hp).
    split; [rewrite Hs, count_into_sum; lia|].
    split; [intros H; apply Hn, count_into_NoDup, H|].
    split; [|intros H; apply Hp, count_into_positive, H].
    intros k. rewrite Hg, count_into_get. unfold occurrences. simpl.
    destruct (value_eqb k v); simpl; lia.
Qed.

Lemma tally_get_In (k : value) (n : nat) (t : list (value * nat)) :
  NoDup (map fst t) -> Forall (fun e => (1 <= snd e)%nat) t ->
  (In (k, n) t <-> tally_get k t = n /\ (1 <= n)%nat).
Proof.
  induction t as [|[k' n'] t IH]; simpl; intros Hnd Hpos.
  - split; [contradiction|lia].
  - inversion Hnd as [|? ? Hk Ht]; subst.
    inversion Hpos as [|? ? Hn' Hp]; subst. simpl in Hn'.
    destruct (value_eqb k' k) eqn:He.
    + apply value_eqb_eq in He. subst k'. split.
      * intros [H|H]; [injection H as <-; lia|].
        exfalso. apply Hk. apply in_map_iff. exists (k, n). tauto.
      * intros [<- _]. left. reflexivity.
    + rewrite <- (IH Ht Hp). split.
      * intros [H|H]; [|exact H]. injection H as -> _.
        rewrite value_eqb_refl in He. discriminate.
      * intros H. right. exact H.
Qed.

Lemma insert_desc_perm (e : value * nat) (l : list (value * nat)) :
  Permutation (insert_desc e l) (e :: l).
Proof.
  induction l as [|h t IH]; simpl; [reflexivity|].
  destruct (snd h <=? snd e)%nat; [reflexivity|].
  rewrite IH. apply perm_swap.
Qed.

Lemma sort_desc_perm (l : list (value * nat)) :
  Permutation (fold_right insert_desc [] l) l.
Proof.
  induction l as [|e l IH]; simpl; [reflexivity|].
  rewrite insert_desc_perm, IH. reflexivity.
Qed.

Lemma insert_desc_Sorted (e : value * nat) (l : list (value * nat)) :
  Sorted count_ge l -> Sorted count_ge (insert_desc e l).
Proof.
  induction 1 as [|h t Ht IH Hhd]; simpl.
  - repeat constructor.
  - destruct (snd h <=? snd e)%nat eqn:Hle.
    + apply Nat.leb_le in Hle.
      constructor; [constructor; assumption|]. constructor. exact Hle.
    + apply Nat.leb_gt in Hle. constructor; [exact IH|].
      assert (Hhe : count_ge h e) by (unfold count_ge; lia).
      destruct t as [|b t]; simpl; [constructor; exact Hhe|].
      destruct (snd b <=? snd e)%nat; constructor; [exact Hhe|].
      inversion Hhd; assumption.
Qed.

Lemma sort_desc_Sorted (l : list (value * nat)) :
  Sorted count_ge (fold_right insert_desc [] l).
Proof.
  induction l as [|e l IH]; simpl; [constructor|].
  apply insert_desc_Sorted. exact IH.
Qed.

Lemma list_sum_perm (l l' : list nat) :
  Permutation l l' -> list_sum l = list_sum l'.
Proof. induction 1; simpl; lia. Qed.

Lemma dropna_fillna (fill : value) (l : list value) :
  isna fill = false ->
  filter (fun v => negb (isna v)) (fillna fill l) = fillna fill l.
Proof.
  intros Hf. apply filter_all. intros x Hx. unfold fillna in Hx.
  apply in_map_iff in Hx. destruct Hx as (v & <- & _).
  destruct (isna v) eqn:Hv; [rewrite Hf|rewrite Hv]; reflexivity.
Qed.

(** What [value_counts] returns for cells none of which is missing. *)
Lemma value_counts_facts (l : list value) :
  filter (fun v => negb (isna v)) l = l ->
  list_sum (map snd (value_counts l)) = List.length l /\
  NoDup (map fst (value_counts l)) /\
  Sorted count_ge (value_counts l) /\
  (forall k n, In (k, n) (value_counts l) <->
               n = occurrences k l /\ (1 <= n)%nat).
Proof.
  intros Hl. unfold value_counts. rewrite Hl.
  destruct (counted_facts l []) as (Hs & Hn & Hg & Hp).
  set (t := fold_left (fun a v => count_into v a) l []) in *.
  pose proof (sort_desc_perm t) as Hperm.
  split; [rewrite (list_sum_perm _ _ (Permutation_map snd Hperm)); exact Hs|].
  assert (Hnd : NoDup (map fst t)) by (apply Hn; constructor).
  split.
  { apply (Permutation_NoDup (Permutation_sym (Permutation_map fst Hperm))).
    exact Hnd. }
  split; [apply sort_desc_Sorted|].
  intros k n. split.
  - intros Hin. apply (Permutation_in _ Hperm) in Hin.
    apply (tally_get_In k n t Hnd (Hp (Forall_nil _))) in Hin.
    rewrite Hg in Hin. simpl in Hin. lia.
  - intros [-> Hn1]. apply (Permutation_in _ (Permutation_sym Hperm)).
    apply (tally_get_In _ _ t Hnd (Hp (Forall_nil _))).
    rewrite Hg. simpl. lia.
Qed.

(** X19. The counts of a chart add up to the number of rows of the sheet:
    no row is left out of the chart, a row with a missing cell included. *)
Theorem chart_counts_cover_sheet (df : DataFrame) (c : string) :
  list_sum (map snd (counts_of df c)) = len df.
Proof.
  unfold counts_of.
  destruct (value_counts_facts (fillna unknown (series df c))) as [Hs _].
  { apply dropna_fillna. reflexivity. }
  rewrite Hs. unfold fillna, series, len. rewrite !length_map. reflexivity.
Qed.

(** X20. The chart data has one entry per distinct value of the column
    after missing cells are replaced by "Unknown", with the number of cells
    holding that value, larger counts first; no entry has the count zero. *)
Theorem chart_counts_exact (df : DataFrame) (c : string) :
  NoDup (map fst (counts_of df c)) /\
  Sorted count_ge (counts_of df c) /\
  (forall k n, In (k, n) (counts_of df c) <->
     n = occurrences k (fillna unknown (series df c)) /\ (1 <= n)%nat).
Proof.
  unfold counts_of.
  destruct (value_counts_facts (fillna unknown (series df c)))
    as (_ & Hn & Hsort & Hin).
  { apply dropna_fillna. reflexivity. }
  split; [exact Hn|]. split; [exact Hsort|exact Hin].
Qed.

Lemma occurrences_fillna (k : value) (l : list value) :
  occurrences k (fillna unknown l)
  = if value_eqb k unknown then (occurrences NaN l + occurrences k l)%nat
    else if isna k then O else occurrences k l.
Proof.
  unfold occurrences, fillna.
  induction l as [|v l IH].
  - simpl. destruct (value_eqb k unknown), (isna k); reflexivity.
  - cbn [map filter]. destruct (value_eqb k unknown) eqn:Hu.
    + apply value_eqb_eq in Hu. subst k.
      destruct v as [|s|z]; cbn [isna value_eqb unknown].
      * rewrite String.eqb_refl. cbn [List.length]. rewrite IH. lia.
      * destruct ("Unknown" =? s)%string; cbn [List.length];
          rewrite IH; lia.
      * exact IH.
    + destruct k as [|s'|z']; cbn [isna] in *.
      * destruct v as [|s|z]; cbn [isna value_eqb unknown]; exact IH.
      * cbn [value_eqb unknown] in Hu.
        destruct v as [|s|z]; cbn [isna value_eqb unknown].
        -- rewrite Hu. exact IH.
        -- destruct (s' =? s)%string; cbn [List.length]; rewrite IH;
             reflexivity.
        -- exact IH.
      * destruct v as [|s|z]; cbn [isna value_eqb unknown].
        -- exact IH.
        -- exact IH.
        -- destruct (z' =? z)%Z; cbn [List.length]; rewrite IH;
             reflexivity.
Qed.

(** X21. The "Unknown" entry of a chart counts the missing cells of the
    column together with the cells whose text is "Unknown"; every other
    entry counts the cells holding its value, and the missing value is
    never an entry. *)
Theorem unknown_bucket (df : DataFrame) (c : string) (k : value) (n : nat) :
  In (k, n) (counts_of df c) ->
  k <> NaN /\
  (k = unknown ->
   n = (occurrences NaN (series df c)
        + occurrences unknown (series df c))%nat) /\
  (k <> unknown -> n = occurrences k (series df c)).
Proof.
  unfold counts_of. intros Hin.
  destruct (value_counts_facts (fillna unknown (series df c)))
    as (_ & _ & _ & Hspec).
  { apply dropna_fillna. reflexivity. }
  apply Hspec in Hin. destruct Hin as [Hn H1].
  rewrite occurrences_fillna in Hn.
  destruct (value_eqb k unknown) eqn:Hu.
  - apply value_eqb_eq in Hu. subst k.
    split; [discriminate|]. split; [intros _; exact Hn|congruence].
  - assert (Hku : k <> unknown).
    { intros ->. rewrite value_eqb_refl in Hu. discriminate. }
    destruct k as [|s|z]; simpl in Hn; [lia| |].
    + split; [discriminate|]. split; [contradiction|intros _; exact Hn].
    + split; [discriminate|]. split; [discriminate|intros _; exact Hn].
Qed.

Lemma unknown_bucket_witness :
  Str "Unknown" <> NaN /\
  (Str "Unknown" = unknown ->
   1%nat = (occurrences NaN (series sheet_with_blank "Notes")
            + occurrences unknown (series sheet_with_blank "Notes"))%nat) /\
  (Str "Unknown" <> unknown ->
   1%nat = occurrences (Str "Unknown") (series sheet_with_blank "Notes")).
Proof.
  apply (unknown_bucket sheet_with_blank "Notes" (Str "Unknown") 1).
  left. reflexivity.
Defined.

(* ------------------------------------------------------------------ *)
(** ** A run of the page *)



(* ------------------------------------------------------------------ *)
(** ** The hazards by controls table *)

Lemma string_leb_trans (s1 s2 s3 : string) :
  String.leb s1 s2 = true -> String.leb s2 s3 = true ->
  String.leb s1 s3 = true.
Proof.
  unfold String.leb.
  assert (H : String.compare s1 s2 <> Gt -> String.compare s2 s3 <> Gt ->
              String.compare s1 s3 <> Gt).
  { revert s2 s3. induction s1 as [|c1 s1 IH]; intros [|c2 s2] [|c3 s3];
      simpl; try congruence.
    unfold Ascii.compare.
    destruct (N.compare_spec (N_of_ascii c1) (N_of_ascii c2)) as [H12|H12|H12],
             (N.compare_spec (N_of_ascii c2) (N_of_ascii c3)) as [H23|H23|H23],
             (N.compare_spec (N_of_ascii c1) (N_of_ascii c3)) as [H13|H13|H13];
      try congruence; try lia.
    apply IH. }
  destruct (String.compare s1 s2), (String.compare s2 s3),
           (String.compare s1 s3); try reflexivity; try discriminate;
    intros _ _; exfalso; apply H; congruence.
Qed.

Lemma value_le_trans (a b c : value) :
  value_le a b -> value_le b c -> value_le a c.
Proof.
  unfold value_le. destruct a, b, c; simpl; try congruence.
  - apply string_leb_trans.
  - rewrite !Z.leb_le. lia.
Qed.

Lemma value_le_antisym (a b : value) :
  value_le a b -> value_le b a -> a = b.
Proof.
  unfold value_le. destruct a, b; simpl; try congruence.
  - intros H1 H2. f_equal. apply String.leb_antisym; assumption.
  - rewrite !Z.leb_le. intros H1 H2. f_equal. lia.
Qed.

Lemma value_le_total (a b : value) : value_le a b \/ value_le b a.
Proof.
  unfold value_le. destruct a, b; simpl; auto.
  - apply String.leb_total.
  - rewrite !Z.leb_le. lia.
Qed.

Lemma insert_key_In (v x : value) (l : list value) :
  In x (insert_key v l) <-> x = v \/ In x l.
Proof.
  induction l as [|h t IH]; simpl.
  - intuition congruence.
  - destruct (value_eqb h v) eqn:He.
    + apply value_eqb_eq in He. subst h. simpl. intuition congruence.
    + destruct (value_leb v h); simpl; [intuition congruence|].
      rewrite IH. intuition congruence.
Qed.

Lemma insert_key_sorted (v : value) (l : list value) :
  StronglySorted value_le l -> StronglySorted value_le (insert_key v l).
Proof.
  induction 1 as [|h t Ht IH Hall]; simpl.
  - repeat constructor.
  - destruct (value_eqb h v) eqn:He; [constructor; assumption|].
    destruct (value_leb v h) eqn:Hle.
    + constructor; [constructor; assumption|].
      constructor; [exact Hle|].
      apply Forall_forall. intros x Hx. rewrite Forall_forall in Hall.
      apply (value_le_trans v h x); [exact Hle|apply Hall; exact Hx].
    + constructor; [exact IH|].
      apply Forall_forall. intros x Hx. apply insert_key_In in Hx.
      destruct Hx as [->|Hx].
      * destruct (value_le_total v h) as [H|H]; [|exact H].
        unfold value_le in H. congruence.
      * rewrite Forall_forall in Hall. apply Hall. exact Hx.
Qed.

Lemma insert_key_NoDup (v : value) (l : list value) :
  StronglySorted value_le l -> NoDup l -> NoDup (insert_key v l).
Proof.
  induction 1 as [|h t Ht IH Hall]; simpl; intros Hnd.
  - constructor; [tauto|constructor].
  - inversion Hnd as [|? ? Hh Hnt]; subst.
    destruct (value_eqb h v) eqn:He; [exact Hnd|].
    assert (Hne : h <> v).
    { intros ->. rewrite value_eqb_refl in He. discriminate. }
    destruct (value_leb v h) eqn:Hle.
    + constructor; [|exact Hnd]. intros [Heq|Hin]; [congruence|].
      rewrite Forall_forall in Hall. apply Hne.
      apply value_le_antisym; [apply Hall; exact Hin|exact Hle].
    + constructor; [|apply IH; exact Hnt].
      rewrite insert_key_In. intros [Heq|Hin]; [congruence|contradiction].
Qed.

Lemma sorted_keys_facts (l : list value) :
  StronglySorted value_le (sorted_keys l) /\
  NoDup (sorted_keys l) /\
  (forall x, In x (sorted_keys l) <-> In x l).
Proof.
  unfold sorted_keys. induction l as [|v l (Hs & Hn & Hin)]; simpl.
  - split; [constructor|]. split; [constructor|tauto].
  - split; [apply insert_key_sorted; exact Hs|].
    split; [apply insert_key_NoDup; assumption|].
    intros x. rewrite insert_key_In, Hin. intuition congruence.
Qed.

Lemma list_sum_map_add {A : Type} (a b : A -> nat) (l : list A) :
  list_sum (map (fun k => (a k + b k)%nat) l)
  = (list_sum (map a l) + list_sum (map b l))%nat.
Proof. induction l as [|x l IH]; simpl; [reflexivity|]. rewrite IH. lia. Qed.

Lemma sum_indicator (x : value) (keys : list value) :
  NoDup keys ->
  list_sum (map (fun k => if value_eqb x k then 1%nat else O) keys)
  = if existsb (value_eqb x) keys then 1%nat else O.
Proof.
  induction 1 as [|k keys Hk Hn IH]; simpl; [reflexivity|].
  rewrite IH. destruct (value_eqb x k) eqn:He; simpl; [|reflexivity].
  apply value_eqb_eq in He. subst k.
  destruct (existsb (value_eqb x) keys) eqn:Hex; [|reflexivity].
  exfalso. apply existsb_exists in Hex. destruct Hex as (y & Hy & Hxy).
  apply value_eqb_eq in Hxy. subst y. contradiction.
Qed.

(** Counting the elements of a list key by key counts each of them once. *)
Lemma sum_over_keys {A : Type} (f : A -> value) (q : A -> bool)
                    (keys : list value) (l : list A) :
  NoDup keys -> (forall p, In p l -> In (f p) keys) ->
  list_sum
    (map (fun k =>
            List.length (filter (fun p => q p && value_eqb (f p) k) l))
         keys)
  = List.length (filter q l).
Proof.
  intros Hn. induction l as [|p l IH]; intros Hin; simpl.
  - clear. induction keys as [|k keys IHk]; simpl; [reflexivity|].
    exact IHk.
  - specialize (IH (fun x Hx => Hin x (or_intror Hx))).
    assert (Hp : existsb (value_eqb (f p)) keys = true).
    { apply existsb_exists. exists (f p).
      split; [apply Hin; left; reflexivity|apply value_eqb_refl]. }
    destruct (q p); cbn [andb List.length].
    + rewrite <- IH.
      transitivity
        (list_sum
           (map (fun k =>
                   ((if value_eqb (f p) k then 1 else 0)
                    + List.length
                        (filter (fun x => q x && value_eqb (f x) k) l))%nat)
                keys)).
      * f_equal. apply map_ext. intros k.
        destruct (value_eqb (f p) k); reflexivity.
      * rewrite list_sum_map_add, (sum_indicator (f p) keys Hn), Hp.
        reflexivity.
    + exact IH.
Qed.

Lemma crosstab_total (hs cs : list value) :
  List.length hs = List.length cs ->
  ct_total (crosstab hs cs) = List.length hs.
Proof.
  intros Hlen. unfold ct_total, crosstab. cbn [ct_rows].
  rewrite map_map. cbn [snd].
  destruct (sorted_keys_facts hs) as (_ & Hnh & Hinh).
  destruct (sorted_keys_facts cs) as (_ & Hnc & Hinc).
  rewrite (map_ext
             (fun h => list_sum
                         (map (fun c => count_pair h c (combine hs cs))
                              (sorted_keys cs)))
             (fun h => List.length
                         (filter (fun p => true && value_eqb (fst p) h)
                                 (combine hs cs)))).
  - rewrite (sum_over_keys fst (fun _ => true) (sorted_keys hs)
               (combine hs cs) Hnh).
    + rewrite filter_all by reflexivity. rewrite length_combine. lia.
    + intros [h c] Hp. apply Hinh. apply (in_combine_l _ _ _ _ Hp).
  - intros h. unfold count_pair.
    apply (sum_over_keys snd (fun p => value_eqb (fst p) h)
             (sorted_keys cs) (combine hs cs) Hnc).
    intros [h' c] Hp. apply Hinc. apply (in_combine_r _ _ _ _ Hp).
Qed.

Lemma Forall_firstn {A : Type} (P : A -> Prop) (n : nat) (l : list A) :
  Forall P l -> Forall P (firstn n l).
Proof.
  revert n. induction l as [|x l IH]; intros [|n] H; simpl;
    try constructor; inversion H; subst; auto.
Qed.

Lemma In_firstn {A : Type} (n : nat) (l : list A) (x : A) :
  In x (firstn n l) -> In x l.
Proof.
  revert n. induction l as [|y l IH]; intros [|n]; simpl; try tauto.
  intros [H|H]; [left; exact H|right; apply (IH n); exact H].
Qed.

Lemma NoDup_firstn {A : Type} (n : nat) (l : list A) :
  NoDup l -> NoDup (firstn n l).
Proof.
  revert n. induction l as [|x l IH]; intros [|n] H; simpl;
    try constructor; inversion H; subst; auto.
  intros Hin. apply In_firstn in Hin. contradiction.
Qed.

Lemma list_sum_firstn (n : nat) (l : list nat) :
  (list_sum (firstn n l) <= list_sum l)%nat.
Proof.
  revert n. induction l as [|x l IH]; intros [|n]; simpl; try lia.
  specialize (IH n). lia.
Qed.

(** X23. The hazards by controls table shown on the dashboard has at most
    200 rows, one per distinct hazard, and in each row one count per distinct
    control; missing hazards and controls are counted under "Unknown", so
    the counts of a table that was not cut add up to the number of rows of
    the sheet, and those of a table that was cut to no more. *)
Theorem hazards_table_counts (df : DataFrame) (shown : Crosstab) :
  hazards_vs_controls (dashboard df) = Some shown ->
  (List.length (ct_rows shown) <= 200)%nat /\
  Forall (fun r => List.length (snd r) = List.length (ct_columns shown))
         (ct_rows shown) /\
  NoDup (map fst (ct_rows shown)) /\
  NoDup (ct_columns shown) /\
  (ct_total shown <= len df)%nat /\
  ((List.length (ct_rows shown) < 200)%nat -> ct_total shown = len df).
Proof.
  unfold dashboard. cbn [hazards_vs_controls].
  destruct (hazard_col df) as [h|]; [|discriminate].
  destruct (control_col df) as [c|]; [|discriminate].
  destruct (Py.truthy h && Py.truthy c); [|discriminate].
  intros H. injection H as <-.
  set (hs := fillna unknown (series df h)).
  set (cs := fillna unknown (series df c)).
  assert (Hlen : List.length hs = List.length cs)
    by (unfold hs, cs, fillna, series; rewrite !length_map; reflexivity).
  assert (Hdf : List.length hs = len df)
    by (unfold hs, fillna, series, len; rewrite !length_map; reflexivity).
  pose proof (crosstab_total hs cs Hlen) as Htot.
  destruct (sorted_keys_facts hs) as (_ & Hnh & _).
  destruct (sorted_keys_facts cs) as (_ & Hnc & _).
  unfold ct_head. cbn [ct_rows ct_columns].
  split; [apply firstn_le_length|].
  split.
  { apply Forall_firstn. unfold crosstab. cbn [ct_rows ct_columns].
    apply Forall_forall. intros r Hr. apply in_map_iff in Hr.
    destruct Hr as (k & <- & _). cbn [snd]. apply length_map. }
  split.
  { rewrite <- firstn_map. apply NoDup_firstn.
    unfold crosstab. cbn [ct_rows]. rewrite map_map. cbn [fst].
    rewrite map_id. exact Hnh. }
  split; [exact Hnc|].
  unfold ct_total in *. cbn [ct_rows].
  split.
  - rewrite <- Hdf, <- Htot, <- firstn_map. apply list_sum_firstn.
  - intros Hshort. rewrite length_firstn in Hshort.
    rewrite firstn_all2 by lia. rewrite Htot. exact Hdf.
Qed.

Lemma hazards_table_counts_witness :
  (List.length [(Str "Dust", [0; 2; 0]); (Str "Heat", [1; 0; 1])] <= 200)%nat /\
  Forall (fun r : value * list nat =>
            List.length (snd r)
            = List.length [Str "Gloves"; Str "Mask"; Str "Unknown"])
         [(Str "Dust", [0; 2; 0]); (Str "Heat", [1; 0; 1])]%nat /\
  NoDup (map fst [(Str "Dust", [0; 2; 0]); (Str "Heat", [1; 0; 1])]%nat) /\
  NoDup [Str "Gloves"; Str "Mask"; Str "Unknown"] /\
  (ct_total (mkCrosstab [Str "Gloves"; Str "Mask"; Str "Unknown"]
               [(Str "Dust", [0; 2; 0]); (Str "Heat", [1; 0; 1])]%nat)
   <= len sheet_hazards)%nat /\
  ((List.length [(Str "Dust", [0; 2; 0]); (Str "Heat", [1; 0; 1])]%nat < 200)%nat ->
   ct_total (mkCrosstab [Str "Gloves"; Str "Mask"; Str "Unknown"]
               [(Str "Dust", [0; 2; 0]); (Str "Heat", [1; 0; 1])]%nat)
   = len sheet_hazards).
Proof.
  apply (hazards_table_counts sheet_hazards
           (mkCrosstab [Str "Gloves"; Str "Mask"; Str "Unknown"]
              [(Str "Dust", [0; 2; 0]); (Str "Heat", [1; 0; 1])]%nat)).
  reflexivity.
Defined.

(* ------------------------------------------------------------------ *)
(** ** The report and the dashboard, the loader and the controls *)

(** X24. The chart of the report agrees with the dashboard: it is the
    division chart of the dashboard when there is one, else its risk chart,
    with the same title and counts and no height of its own, and the
    placeholder only when the dashboard shows neither. *)
Theorem report_chart_matches_dashboard (df : DataFrame) :
  (forall t d h, fig_div (dashboard df) = Some (Bar t d h) ->
     pdf_chart df = Bar t d None) /\
  (forall t d h, fig_div (dashboard df) = None ->
     fig_risk (dashboard df) = Some (Pie t d h) ->
     pdf_chart df = Pie t d None) /\
  (fig_div (dashboard df) = None -> fig_risk (dashboard df) = None ->
   pdf_chart df = placeholder_chart) /\
  (fig_div (dashboard df) = None \/
   exists t d h, fig_div (dashboard df) = Some (Bar t d h)) /\
  (fig_risk (dashboard df) = None \/
   exists t d h, fig_risk (dashboard df) = Some (Pie t d h)).
Proof.
  unfold dashboard, pdf_chart, risk_chart_or_placeholder.
  cbn [fig_div fig_risk].
  destruct (division_col df) as [dc|]; [destruct (Py.truthy dc)|];
    (destruct (risk_col df) as [rc|]; [destruct (Py.truthy rc)|]);
    repeat split; intros; try discriminate; try congruence;
    try (left; reflexivity); right; eauto.
Qed.

Section PageReportFacts.
Context {E : RegexEngine} {R : Renderer}.

(** X25. A report generated by a run of the page dumps the first 50 rows of
    the filtered result of that run, under the title of the chosen sheet;
    the rows of the sheet that the filters dropped do not appear in it. *)
Theorem report_dumps_filtered_rows (name : string) (df : DataFrame)
                                   (c : criteria) (idx : Z) (p : page)
                                   (doc : list pdf_op) :
  run_page name df c idx true = Ok p ->
  pdf_report p = Some doc ->
  FilterEngine df c = Ok (filtered_rows p) /\
  drawn_texts doc
  = report_title name
    :: flat_map (fun r => text_lines (row_text r))
                (firstn 50 (to_dict_records (filtered_rows p))).
Proof.
  intros Hrun Hdoc. apply run_page_Ok in Hrun.
  destruct Hrun as (HF & _ & _ & Hpdf). split; [exact HF|].
  specialize (Hpdf doc Hdoc).
  destruct (make_pdf_report_drawn (report_title name) (pdf_chart df)
              (to_dict_records (filtered_rows p))) as (ops & Hops & Ht & _).
  rewrite Hops in Hpdf. apply Ok_inj in Hpdf. subst doc. exact Ht.
Qed.

End PageReportFacts.

Lemma nth_error_In_pos {A : Type} (l : list A) (x : A) :
  In x l -> exists i, nth_error l i = Some x.
Proof.
  induction l as [|a l IH]; simpl; [contradiction|].
  intros [->|H]; [exists O; reflexivity|].
  destruct (IH H) as [i Hi]. exists (S i). exact Hi.
Qed.

(** X26. When the first row of a sheet names its division, the loaded sheet
    has no missing division cell, and the division of every row is among the
    options of the division control: every row can be reached by a
    selection. *)
Theorem named_first_division_reaches_all_rows (raw : RawSheet) (c : string)
                                              (v : value)
                                              (rest : list value) :
  find_col "division" (columns (strip_columns raw)) = Some c ->
  rectangular (strip_columns raw) = true ->
  series (strip_columns raw) c = v :: rest -> v <> NaN ->
  division_col (normalize_sheet raw) = Some c /\
  forall r, In r (rows (normalize_sheet raw)) ->
    cell_of (columns (normalize_sheet raw)) c r <> NaN /\
    In (py_str (cell_of (columns (normalize_sheet raw)) c r))
       (select_options (normalize_sheet raw) c).
Proof.
  intros Hc Hrect Hser Hv.
  assert (Hdiv : division_col (normalize_sheet raw) = Some c).
  { unfold division_col. rewrite normalize_sheet_columns. exact Hc. }
  split; [exact Hdiv|].
  pose proof (normalize_sheet_division_series raw c Hc Hrect) as Hafter.
  assert (Hfull : forall x, In x (series (normalize_sheet raw) c) ->
                            x <> NaN).
  { intros x Hx ->. apply nth_error_In_pos in Hx. destruct Hx as [i Hi].
    rewrite Hafter in Hi. unfold ffill in Hi.
    apply ffill_from_blank in Hi. destruct Hi as [_ Hall].
    specialize (Hall O (Nat.le_0_l i)). rewrite Hser in Hall.
    simpl in Hall. congruence. }
  intros r Hr.
  assert (Hcell : cell_of (columns (normalize_sheet raw)) c r <> NaN).
  { apply Hfull. apply series_In. exists r. split; [exact Hr|reflexivity]. }
  split; [exact Hcell|].
  unfold select_options. right. apply offered_texts_In.
  exists r. split; [exact Hr|]. split; [exact Hcell|reflexivity].
Qed.

Lemma named_first_division_reaches_all_rows_witness :
  division_col (normalize_sheet raw_grouped) = Some "Division" /\
  forall r, In r (rows (normalize_sheet raw_grouped)) ->
    cell_of (columns (normalize_sheet raw_grouped)) "Division" r <> NaN /\
    In (py_str (cell_of (columns (normalize_sheet raw_grouped))
                        "Division" r))
       (select_options (normalize_sheet raw_grouped) "Division").
Proof.
  apply (named_first_division_reaches_all_rows raw_grouped "Division"
           (Str "A") [NaN; Str "B"; NaN; NaN]).
  - reflexivity.
  - reflexivity.
  - reflexivity.
  - discriminate.
Defined.

Lemma report_dumps_filtered_rows_witness :
  exists p doc,
    @run_page PlainEngine SampleRenderer "Sheet1" sheet_3A_2B
              (mkCriteria "B" "All" "") 0 true = Ok p /\
    pdf_report p = Some doc /\
    drawn_texts doc
    = [report_title "Sheet1";
       "Division: B | Task: Forklift | Risk Level: Low";
       "Division: B | Task: Painting | Risk Level: High"].
Proof.
  destruct (@run_page PlainEngine SampleRenderer "Sheet1" sheet_3A_2B
              (mkCriteria "B" "All" "") 0 true) as [p|e] eqn:Hrun;
    [|vm_compute in Hrun; discriminate Hrun].
  destruct (pdf_report p) as [doc|] eqn:Hdoc.
  - exists p, doc. split; [reflexivity|]. split; [exact Hdoc|].
    pose proof (proj2 (@report_dumps_filtered_rows PlainEngine SampleRenderer
                         "Sheet1" sheet_3A_2B (mkCriteria "B" "All" "")
                         0 p doc Hrun Hdoc)) as Ht.
    vm_compute in Hrun. apply Ok_inj in Hrun. subst p.
    rewrite Ht. vm_compute. reflexivity.
  - vm_compute in Hrun. apply Ok_inj in Hrun. subst p.
    cbn in Hdoc. discriminate Hdoc.
Defined.
